(** * vcs_number.py: the TeamCity build-number script, embedded and verified

    The script sets the build number of a TeamCity configuration to the
    largest vcs number among the configuration itself and the
    configurations it depends on.  This file embeds every function of
    [vcs_number.py] and proves the properties stated about them.

    Conventions of the embedding.
    - A Python string is a list of 8-bit characters ([pystr]).
    - A Python [int] is a [Z] (Python integers do not wrap around).
    - Exceptions are values of [exn]; a computation that may raise returns a
      [result].  Functions that touch the environment variables, the working
      directory or standard output live in the monad [M], which threads the
      [world] and may raise.
    - The built-ins the script calls ([int], [str], [repr], [str.split],
      [str.join], [str.replace], [max], [re.sub], [glob.glob], [open]) are
      modelled after the documentation of Python 2, the version the script
      and its tests are written for: strings of 8-bit characters, the ten
      ASCII digits, no underscores inside integer texts. *)

From Stdlib Require Import ZArith Ascii String List Lia.
From stdpp Require Import gmap strings list.
Import ListNotations.
Open Scope Z_scope.

(** ** Strings *)

Definition pystr : Type := list ascii.

(** String literals are read as character lists. *)
Coercion list_ascii_of_string : string >-> list.

Definition ascii_code (c : ascii) : Z := Z.of_N (N_of_ascii c).

Definition ascii_eqb (a b : ascii) : bool := ascii_code a =? ascii_code b.

(** [\d] on 8-bit strings: the ten characters 0 to 9. *)
Definition is_digit (c : ascii) : bool :=
  (48 <=? ascii_code c) && (ascii_code c <=? 57).

(** The characters [int] and [str.strip] treat as white space:
    tab, newline, vertical tab, form feed, carriage return, space. *)
Definition is_space (c : ascii) : bool :=
  ((9 <=? ascii_code c) && (ascii_code c <=? 13)) || (ascii_code c =? 32).

Definition digit_value (c : ascii) : Z := ascii_code c - 48.

Definition digit_char (d : Z) : ascii := ascii_of_N (Z.to_N (48 + d)).

Definition all_digits (s : pystr) : bool := forallb is_digit s.

(** A non-empty run of decimal digits. *)
Definition digit_run (s : pystr) : bool :=
  match s with [] => false | _ => all_digits s end.

(** ** Exceptions and results *)

Inductive exn : Type :=
  | Exception (msg : pystr)     (* raise Exception(msg) *)
  | ValueError (msg : pystr)    (* raised by int() and by max() *)
  | IndexError (msg : pystr)    (* raised by indexing an empty list *)
  | KeyError (key : pystr)      (* raised by os.environ[key] *)
  | IOError (file : pystr).     (* raised by open() on a missing file or directory *)

Inductive result (A : Type) : Type :=
  | Ok (a : A)
  | Raise (e : exn).
Arguments Ok {A} a.
Arguments Raise {A} e.

(** [try: body except Exception: handler]; every exception of the script is
    an instance of [Exception]. *)
Definition try_except {A} (body : result A) (handler : exn -> result A) : result A :=
  match body with
  | Ok a => Ok a
  | Raise e => handler e
  end.

(** ** Built-ins on strings and integers *)

(** [str.lstrip()], [str.rstrip()], [str.strip()]. *)
Fixpoint lstrip (s : pystr) : pystr :=
  match s with
  | c :: r => if is_space c then lstrip r else s
  | [] => []
  end.

Definition rstrip (s : pystr) : pystr := rev (lstrip (rev s)).

Definition strip (s : pystr) : pystr := rstrip (lstrip s).

(** Value of a run of digits, most significant first. *)
Fixpoint digits_value (acc : Z) (s : pystr) : Z :=
  match s with
  | c :: r => digits_value (10 * acc + digit_value c) r
  | [] => acc
  end.

Definition parse_digits (s : pystr) : option Z :=
  if digit_run s then Some (digits_value 0 s) else None.

(** The integer denoted by [s] for [int(s)], if any: white space around an
    optional sign that is directly followed by one or more digits. *)
Definition int_literal (s : pystr) : option Z :=
  match strip s with
  | c :: r =>
      if ascii_eqb c "-" then option_map Z.opp (parse_digits r)
      else if ascii_eqb c "+" then parse_digits r
      else parse_digits (c :: r)
  | [] => None
  end.

(** [repr(s)] of an 8-bit string. *)
Definition hex_char (d : Z) : ascii :=
  if d <? 10 then digit_char d else ascii_of_N (Z.to_N (87 + d)).

Definition repr_char (quote c : ascii) : pystr :=
  let n := ascii_code c in
  if ascii_eqb c quote || ascii_eqb c "\" then ["\"%char; c]
  else if n =? 9 then "\t"
  else if n =? 10 then "\n"
  else if n =? 13 then "\r"
  else if (n <? 32) || (127 <=? n) then
    ["\"%char; "x"%char; hex_char (n / 16); hex_char (n mod 16)]
  else [c].

Definition has_char (c : ascii) (s : pystr) : bool := existsb (ascii_eqb c) s.

Definition squote : ascii := "'"%char.
Definition dquote : ascii := ascii_of_N 34.

Definition repr (s : pystr) : pystr :=
  let quote : ascii :=
    if has_char squote s && negb (has_char dquote s) then dquote else squote in
  quote :: flat_map (repr_char quote) s ++ [quote].

(** How CPython 2.7 reads the string in [int(s)]: as a C string, that is,
    up to the first NUL byte. *)
Definition nul : ascii := ascii_of_N 0.

Fixpoint c_string (s : pystr) : pystr :=
  match s with
  | [] => []
  | c :: r => if ascii_eqb c nul then [] else c :: c_string r
  end.

(** The message of the [ValueError] of [int(s)] on a text that is no
    integer literal.  CPython 2.7 shows the [repr] of the C string after
    its leading white space, cut to 200 characters. *)
Definition int_error_message (s : pystr) : pystr :=
  "invalid literal for int() with base 10: "
  ++ repr (firstn 200 (lstrip (c_string s))).

(** [int(s)].  A rejected text raises [ValueError]; when the text before a
    NUL byte is an integer literal, the message is about the NUL byte. *)
Definition int_ (s : pystr) : result Z :=
  match int_literal s with
  | Some n => Ok n
  | None =>
      match int_literal (c_string s) with
      | Some _ => Raise (ValueError "null byte in argument for int()")
      | None => Raise (ValueError (int_error_message s))
      end
  end.

(** [str(n)]: the decimal digits of [n], least significant first, with
    enough fuel for every digit. *)
Fixpoint rev_digits (fuel : nat) (n : Z) : pystr :=
  match fuel with
  | O => []
  | S f =>
      digit_char (n mod 10) :: (if n / 10 =? 0 then [] else rev_digits f (n / 10))
  end.

Definition str_nat (n : Z) : pystr :=
  rev (rev_digits (S (Z.to_nat (Z.log2 n))) n).

Definition str (n : Z) : pystr :=
  if n <? 0 then "-"%char :: str_nat (- n) else str_nat n.

(** [s.split(sep)] for a one-character separator: never the empty list. *)
Fixpoint split (sep : ascii) (s : pystr) : list pystr :=
  match s with
  | [] => [[]]
  | c :: r =>
      if ascii_eqb c sep then [] :: split sep r
      else match split sep r with
           | w :: ws => (c :: w) :: ws
           | [] => [[c]]
           end
  end.

(** [sep.join(parts)] *)
Fixpoint join (sep : pystr) (parts : list pystr) : pystr :=
  match parts with
  | [] => []
  | [w] => w
  | w :: ws => w ++ sep ++ join sep ws
  end.

(** [parts[-1]]; the script applies it to the result of [split] only. *)
Definition last_item (parts : list pystr) : result pystr :=
  match last parts with
  | Some w => Ok w
  | None => Raise (IndexError "list index out of range")
  end.

(** [parts[:-1]] *)
Definition but_last (parts : list pystr) : list pystr := removelast parts.

(** [s.replace(old, new)] for one-character [old] and [new]. *)
Definition replace (old new : ascii) (s : pystr) : pystr :=
  map (fun c => if ascii_eqb c old then new else c) s.

(** [max(a, b)]: the first argument unless the second is strictly larger. *)
Definition max2 (a b : Z) : Z := if a <? b then b else a.

(** [max(l)] on a list: the first of the largest items. *)
Fixpoint max_from (best : Z) (l : list Z) : Z :=
  match l with
  | [] => best
  | x :: r => max_from (max2 best x) r
  end.

Definition max_seq (l : list Z) : result Z :=
  match l with
  | [] => Raise (ValueError "max() arg is an empty sequence")
  | x :: r => Ok (max_from x r)
  end.

(** ** The pattern [\d+$] and [re.sub]

    [$] matches at the end of the string and just before a newline that
    ends the string. *)
Definition newline : ascii := ascii_of_N 10.

Definition at_dollar (rest : pystr) : bool :=
  match rest with
  | [] => true
  | [c] => ascii_eqb c newline
  | _ => false
  end.

(** Match [\d+$] at the head of [s]: the number of characters matched.
    [\d+] is greedy: it first tries to take one more digit, and gives the
    digit back when the rest does not match. *)
Fixpoint match_digits_dollar (s : pystr) : option nat :=
  match s with
  | c :: rest =>
      if is_digit c then
        match match_digits_dollar rest with
        | Some k => Some (S k)
        | None => if at_dollar rest then Some 1%nat else None
        end
      else None
  | [] => None
  end.

(** [re.subn('\d+$', repl, s)]: scan from the left; where the pattern
    matches, emit [repl] and resume after the match ([skip] counts the
    matched characters still to be passed over); elsewhere copy the
    character.  Returns the new string and the number of substitutions.
    [repl] is the decimal text of an integer, which holds no backslash, so
    it is inserted as it is. *)
Fixpoint subn_scan (repl : pystr) (skip : nat) (s : pystr) : pystr * nat :=
  match s with
  | [] => ([], 0%nat)
  | c :: rest =>
      match skip with
      | S k => subn_scan repl k rest
      | O =>
          match match_digits_dollar s with
          | Some (S k) =>
              let '(out, n) := subn_scan repl k rest in (repl ++ out, S n)
          | _ =>
              let '(out, n) := subn_scan repl 0 rest in (c :: out, n)
          end
      end
  end.

Definition re_subn_digits_dollar (repl s : pystr) : pystr * nat :=
  subn_scan repl 0 s.

Definition re_sub_digits_dollar (repl s : pystr) : pystr :=
  fst (re_subn_digits_dollar repl s).

(** ** The pure functions of the script *)

Definition get_teamcity_message (build_number : pystr) : pystr :=
  "##teamcity[buildNumber '" ++ build_number ++ "']".

Definition vcs_number_error (build_number : pystr) : pystr :=
  "Check the build number format in your TeamCity configuration. "
  ++ build_number
  ++ " is not a valid build number, it needs to end with the vcs number.".

Definition get_vcs_number (build_number : pystr) : result Z :=
  try_except
    (match last_item (split "." build_number) with
     | Ok w => int_ w
     | Raise e => Raise e
     end)
    (fun _ => Raise (Exception (vcs_number_error build_number))).

Definition get_branch_number (build_number : pystr) : pystr :=
  join "." (but_last (split "." build_number)).

(** ** The world of the script and its monad *)

(** The environment variables, the files of the working directory (name
    and contents, in the order the directory lists them) and the arguments
    of the calls of [print] so far.  The working directory holds readable
    plain files only: it has no sub-directories and no links. *)
Record world : Type := World {
  environ : gmap pystr pystr;
  cwd : list (pystr * pystr);
  stdout : list pystr
}.

Definition M (A : Type) : Type := world -> result A * world.

Definition ret {A} (a : A) : M A := fun w => (Ok a, w).

Definition raise {A} (e : exn) : M A := fun w => (Raise e, w).

Definition bind {A B} (c : M A) (k : A -> M B) : M B :=
  fun w =>
    match c w with
    | (Ok a, w') => k a w'
    | (Raise e, w') => (Raise e, w')
    end.

Definition lift {A} (r : result A) : M A := fun w => (r, w).

Declare Scope py_scope.
Delimit Scope py_scope with py.
Notation "x <- c ;; k" := (bind c (fun x => k))
  (at level 100, c at next level, right associativity) : py_scope.
Notation "c ;;; k" := (bind c (fun _ => k))
  (at level 100, right associativity) : py_scope.
Open Scope py_scope.

(** [[f(x) for x in xs]]: left to right, the first exception ends it. *)
Fixpoint for_each {A B} (f : A -> M B) (xs : list A) : M (list B) :=
  match xs with
  | [] => ret []
  | x :: r => y <- f x ;; ys <- for_each f r ;; ret (y :: ys)
  end.

(** [os.environ.get(key)] *)
Definition os_environ_get (key : pystr) : M (option pystr) :=
  fun w => (Ok (environ w !! key), w).

(** [os.environ[key]] *)
Definition os_environ_item (key : pystr) : M pystr :=
  fun w =>
    match environ w !! key with
    | Some v => (Ok v, w)
    | None => (Raise (KeyError key), w)
    end.

(** [fnmatch(name, 'vcsnumber*.txt')]: the name starts with [vcsnumber]
    and what follows ends with [.txt]. *)
Fixpoint starts_with (p s : pystr) : option pystr :=
  match p, s with
  | [], _ => Some s
  | a :: p', b :: s' => if ascii_eqb a b then starts_with p' s' else None
  | _ :: _, [] => None
  end.

Definition ends_with (p s : pystr) : bool :=
  match starts_with (rev p) (rev s) with Some _ => true | None => false end.

Definition matches_vcsnumber_txt (name : pystr) : bool :=
  match starts_with "vcsnumber" name with
  | Some rest => ends_with ".txt" rest
  | None => false
  end.

(** [glob.glob('vcsnumber*.txt')]: the matching names, in directory order. *)
Definition glob_vcsnumber_txt : M (list pystr) :=
  fun w => (Ok (filter (fun n => matches_vcsnumber_txt n = true) (map fst (cwd w))), w).

Fixpoint lookup_file (name : pystr) (files : list (pystr * pystr)) : option pystr :=
  match files with
  | [] => None
  | (n, data) :: r => if decide (n = name) then Some data else lookup_file name r
  end.

(** [with open(name) as f: f.read()]: [IOError] for a name the working
    directory does not hold.  The names the script reads are those the
    glob has just listed, and the working directory holds readable plain
    files only, so that these reads succeed. *)
Definition read_file (name : pystr) : M pystr :=
  fun w =>
    match lookup_file name (cwd w) with
    | Some data => (Ok data, w)
    | None => (Raise (IOError name), w)
    end.

Fixpoint store_file (name data : pystr) (files : list (pystr * pystr))
  : list (pystr * pystr) :=
  match files with
  | [] => [(name, data)]
  | (n, d) :: r =>
      if decide (n = name) then (n, data) :: r else (n, d) :: store_file name data r
  end.

(** [with open(name, 'w') as f: f.write(data)]: creates the file or
    replaces its contents.  A name that holds the path separator names a
    file inside a directory; the names the script writes are relative, and
    the working directory has no sub-directories, so [open] raises
    [IOError] for such a name and nothing is written.  Limits of the file
    system (the length of a name, permissions, free space) are not
    modelled. *)
Definition write_file (name data : pystr) : M unit :=
  fun w =>
    if has_char "/" name then (Raise (IOError name), w)
    else
      (Ok tt, {| environ := environ w; cwd := store_file name data (cwd w);
                 stdout := stdout w |}).

(** [print(line)] *)
Definition print (line : pystr) : M unit :=
  fun w =>
    (Ok tt, {| environ := environ w; cwd := cwd w; stdout := stdout w ++ [line] |}).

(** ** The functions of the script that read or write the world *)

Definition get_own_build_number : M pystr :=
  own_number <- os_environ_get "BUILD_NUMBER" ;;
  match own_number with
  | None | Some [] =>
      raise (Exception "BUILD_NUMBER not set in environment variables")
  | Some own_number => ret own_number
  end.

Definition get_vcs_number_from_file (file_name : pystr) : M Z :=
  data <- read_file file_name ;;
  lift (int_ data).

Definition get_largest_dependency_vcs_number : M Z :=
  files <- glob_vcsnumber_txt ;;
  match files with
  | [] => ret 0
  | _ =>
      numbers <- for_each get_vcs_number_from_file files ;;
      lift (max_seq numbers)
  end.

Definition get_final_vcs_number : M Z :=
  own_build_number <- get_own_build_number ;;
  own <- lift (get_vcs_number own_build_number) ;;
  largest <- get_largest_dependency_vcs_number ;;
  ret (max2 own largest).

Definition get_build_number : M pystr :=
  final <- get_final_vcs_number ;;
  own_build_number <- get_own_build_number ;;
  ret (re_sub_digits_dollar (str final) own_build_number).

Definition write_vcs_number_file (vcs_number : Z) : M unit :=
  config_name <- os_environ_item "TEAMCITY_BUILDCONF_NAME" ;;
  let config_name := replace " " "_" config_name in
  write_file ("vcsnumber_" ++ config_name ++ ".txt") (str vcs_number).

Definition main : M unit :=
  build_number <- get_build_number ;;
  print (get_teamcity_message build_number) ;;;
  vcs_number <- lift (get_vcs_number build_number) ;;
  write_vcs_number_file vcs_number.

(** ** Notions used in the statements *)

(** Value of a run of digits given least significant first. *)
Fixpoint lsf_value (s : pystr) : Z :=
  match s with
  | [] => 0
  | c :: r => digit_value c + 10 * lsf_value r
  end.

(** The text before the last component: empty, or the earlier components
    joined and followed by the separator. *)
Definition before_last (sep : ascii) (cs : list pystr) : pystr :=
  match cs with
  | [] => []
  | _ => join [sep] cs ++ [sep]
  end.

(** A valid build number: every dot-separated component is a non-empty run
    of digits. *)
Definition valid_build_number (build_number : pystr) : bool :=
  forallb digit_run (split "." build_number).

(** [needle] occurs in [hay] as it is. *)
Definition contains (needle hay : pystr) : Prop :=
  exists before after, hay = before ++ needle ++ after.

Fixpoint containsb (needle hay : pystr) : bool :=
  match starts_with needle hay with
  | Some _ => true
  | None => match hay with
            | [] => false
            | _ :: r => containsb needle r
            end
  end.

Definition all_spaces (s : pystr) : bool := forallb is_space s.

(** The dependency files: the entries of the working directory whose name
    matches [vcsnumber*.txt]. *)
Definition dependency_files (w : world) : list (pystr * pystr) :=
  filter (fun e => matches_vcsnumber_txt (fst e) = true) (cwd w).

(** The integer a text stands for ([0] for a text [int] rejects). *)
Definition int_value (data : pystr) : Z := default 0 (int_literal data).

(** The vcs numbers the dependency files hold. *)
Definition dependency_numbers (w : world) : list Z :=
  map (fun e => int_value (snd e)) (dependency_files w).

(** [int] applied to each text in turn; the first rejected text raises. *)
Fixpoint int_all (datas : list pystr) : result (list Z) :=
  match datas with
  | [] => Ok []
  | d :: r =>
      match int_ d with
      | Ok n => match int_all r with
                | Ok ns => Ok (n :: ns)
                | Raise e => Raise e
                end
      | Raise e => Raise e
      end
  end.

(** What reading the files [names] gives. *)
Definition read_all (w : world) (names : list pystr) : list pystr :=
  map (fun n => default [] (lookup_file n (cwd w))) names.

(** Characters that [repr] shows as they are when the quote is the single
    quote: printable, and neither the single quote nor the backslash. *)
Definition plain_char (c : ascii) : bool :=
  (32 <=? ascii_code c) && (ascii_code c <? 127)
  && negb (ascii_eqb c squote) && negb (ascii_eqb c "\").

Definition plain_text (s : pystr) : bool := forallb plain_char s.

(** Worlds used as examples. *)
Definition env_rules_engine (build_number : pystr) : gmap pystr pystr :=
  <[ ("BUILD_NUMBER" : pystr) := build_number ]>
    (<[ ("TEAMCITY_BUILDCONF_NAME" : pystr) := ("RulesEngine - static" : pystr) ]> ∅).

Definition world_no_dependencies : world :=
  World (env_rules_engine "7.3.0.1337") [] [].

Definition world_three_dependencies : world :=
  World (env_rules_engine "7.3.0.1337")
    [("vcsnumber_dep1.txt" : pystr, "1000" : pystr);
     ("readme.txt" : pystr, "notes" : pystr);
     ("vcsnumber_dep2.txt" : pystr, "3000" : pystr);
     ("vcsnumber_dep3.txt" : pystr, "2000" : pystr)] [].

Definition world_own_dominates : world :=
  World (env_rules_engine "7.3.0.9999")
    [("vcsnumber_dep1.txt" : pystr, "1000" : pystr);
     ("vcsnumber_dep2.txt" : pystr, "2000" : pystr)] [].

Definition two_lines : pystr := "1000" ++ [newline] ++ "2000".

Definition world_two_lines : world :=
  World (env_rules_engine "7.3.0.1337") [("vcsnumber_dep1.txt" : pystr, two_lines)] [].

(** A dependency file that holds a letter after the digits. *)
Definition world_letters : world :=
  World (env_rules_engine "7.3.0.1337")
    [("vcsnumber_dep1.txt" : pystr, "1000" : pystr);
     ("vcsnumber_dep2.txt" : pystr, "12a" : pystr)] [].

(** Further example worlds: no [BUILD_NUMBER]; no configuration name; a
    build number that ends in a space. *)
Definition world_unset : world :=
  World ∅ [("vcsnumber_dep1.txt" : pystr, "1000" : pystr)] [].

Definition world_no_name : world :=
  World (<[ ("BUILD_NUMBER" : pystr) := ("7.3.0.1337" : pystr) ]> ∅)
    [("vcsnumber_dep1.txt" : pystr, "3000" : pystr)] [].

Definition world_trailing_space : world :=
  World (env_rules_engine ("7.3.0.42" ++ [" "%char]))
    [("vcsnumber_dep1.txt" : pystr, "3000" : pystr)] [].

(** A configuration name that holds the path separator. *)
Definition world_separator_in_name : world :=
  World (<[ ("BUILD_NUMBER" : pystr) := ("7.3.0.1337" : pystr) ]>
           (<[ ("TEAMCITY_BUILDCONF_NAME" : pystr) := ("Installer/Windows" : pystr) ]> ∅))
    [("vcsnumber_dep1.txt" : pystr, "3000" : pystr)] [].

(** The world with one more line printed. *)
Definition with_output (w : world) (line : pystr) : world :=
  {| environ := environ w; cwd := cwd w; stdout := stdout w ++ [line] |}.

(** The name of the file [write_vcs_number_file] writes. *)
Definition vcs_number_file_name (config_name : pystr) : pystr :=
  "vcsnumber_" ++ replace " " "_" config_name ++ ".txt".

(** A file whose contents [int] accepts. *)
Definition parseable (e : pystr * pystr) : Prop := is_Some (int_literal (snd e)).

(** Each name of the working directory occurs once. *)
Definition distinct_names (w : world) : Prop := NoDup (map fst (cwd w)).

(** The texts [int] accepts, stated as a grammar: white space, an optional
    sign, a non-empty run of digits, white space. *)
Definition integer_text (s : pystr) : Prop :=
  exists ws1 sign ds ws2,
    s = ws1 ++ sign ++ ds ++ ws2 /\
    all_spaces ws1 = true /\ all_spaces ws2 = true /\
    (sign = [] \/ sign = ["+"%char] \/ sign = ["-"%char]) /\
    digit_run ds = true.

(** * Properties *)

(** ** Characters *)

Lemma ascii_code_inj (a b : ascii) : ascii_code a = ascii_code b -> a = b.
Proof.
  unfold ascii_code. intros H. apply N2Z.inj in H.
  rewrite <- (ascii_N_embedding a), <- (ascii_N_embedding b). now rewrite H.
Qed.

Lemma ascii_eqb_eq (a b : ascii) : ascii_eqb a b = true <-> a = b.
Proof.
  unfold ascii_eqb. rewrite Z.eqb_eq. split.
  - apply ascii_code_inj.
  - now intros ->.
Qed.

Lemma ascii_eqb_refl (a : ascii) : ascii_eqb a a = true.
Proof. now apply ascii_eqb_eq. Qed.

Lemma ascii_eqb_neq (a b : ascii) : ascii_eqb a b = false <-> a <> b.
Proof.
  rewrite <- ascii_eqb_eq. destruct (ascii_eqb a b); split; congruence.
Qed.

Lemma ascii_code_of_N (n : N) : (n < 256)%N -> ascii_code (ascii_of_N n) = Z.of_N n.
Proof. intros H. unfold ascii_code. now rewrite N_ascii_embedding. Qed.

Lemma digit_char_code (d : Z) : 0 <= d < 10 -> ascii_code (digit_char d) = 48 + d.
Proof.
  intros H. unfold digit_char. rewrite ascii_code_of_N by lia. lia.
Qed.

Lemma digit_char_is_digit (d : Z) : 0 <= d < 10 -> is_digit (digit_char d) = true.
Proof.
  intros H. unfold is_digit. rewrite digit_char_code by lia.
  apply andb_true_intro. split; apply Z.leb_le; lia.
Qed.

Lemma digit_char_value (d : Z) : 0 <= d < 10 -> digit_value (digit_char d) = d.
Proof. intros H. unfold digit_value. rewrite digit_char_code by lia. lia. Qed.

Lemma is_digit_code (c : ascii) : is_digit c = true <-> 48 <= ascii_code c <= 57.
Proof. unfold is_digit. rewrite andb_true_iff, !Z.leb_le. tauto. Qed.

Lemma digit_value_range (c : ascii) : is_digit c = true -> 0 <= digit_value c < 10.
Proof. rewrite is_digit_code. unfold digit_value. lia. Qed.

Lemma digit_char_of_value (c : ascii) : is_digit c = true -> digit_char (digit_value c) = c.
Proof.
  intros H. apply ascii_code_inj.
  rewrite digit_char_code by now apply digit_value_range.
  unfold digit_value. lia.
Qed.

Lemma is_digit_not_space (c : ascii) : is_digit c = true -> is_space c = false.
Proof.
  rewrite is_digit_code. intros H. unfold is_space.
  apply orb_false_iff. split.
  - apply andb_false_iff. right. apply Z.leb_gt. lia.
  - apply Z.eqb_neq. lia.
Qed.

Lemma is_digit_neq (c x : ascii) :
  is_digit c = true -> is_digit x = false -> ascii_eqb c x = false.
Proof.
  intros Hc Hx. apply ascii_eqb_neq. intros ->. congruence.
Qed.

Lemma all_digits_app (s t : pystr) :
  all_digits (s ++ t) = all_digits s && all_digits t.
Proof. apply forallb_app. Qed.

Lemma digit_run_all_digits (s : pystr) : digit_run s = true -> all_digits s = true.
Proof. now destruct s. Qed.

Lemma digit_run_nonempty (s : pystr) : digit_run s = true -> s <> [].
Proof. now destruct s. Qed.

Lemma digit_run_intro (s : pystr) : s <> [] -> all_digits s = true -> digit_run s = true.
Proof. now destruct s. Qed.

Lemma all_digits_rev (s : pystr) : all_digits (rev s) = all_digits s.
Proof.
  induction s as [|c s IH]; [reflexivity|].
  simpl. rewrite all_digits_app, IH. simpl. rewrite andb_true_r. apply andb_comm.
Qed.

(** ** [str] and [int] *)

Lemma digits_value_app (a : Z) (s t : pystr) :
  digits_value a (s ++ t) = digits_value (digits_value a s) t.
Proof. revert a. induction s as [|c s IH]; intros a; simpl; [reflexivity|apply IH]. Qed.

Lemma digits_value_rev (l : pystr) : digits_value 0 (rev l) = lsf_value l.
Proof.
  induction l as [|c l IH]; [reflexivity|].
  simpl. rewrite digits_value_app, IH. simpl. lia.
Qed.

Lemma digits_value_nonneg (s : pystr) (a : Z) :
  0 <= a -> all_digits s = true -> 0 <= digits_value a s.
Proof.
  revert a. induction s as [|c s IH]; intros a Ha Hs; simpl in *; [lia|].
  apply andb_true_iff in Hs as [Hc Hs].
  apply IH; [|assumption]. pose proof (digit_value_range c Hc). lia.
Qed.

Lemma rev_digits_spec (fuel : nat) (n : Z) :
  0 <= n < 2 ^ Z.of_nat fuel ->
  all_digits (rev_digits fuel n) = true /\ lsf_value (rev_digits fuel n) = n.
Proof.
  revert n. induction fuel as [|f IH]; intros n Hn.
  - simpl in *. split; [reflexivity|lia].
  - rewrite Nat2Z.inj_succ, Z.pow_succ_r in Hn by lia.
    assert (Hm : 0 <= n mod 10 < 10) by (apply Z.mod_pos_bound; lia).
    assert (Hd : n = 10 * (n / 10) + n mod 10) by (apply Z.div_mod; lia).
    simpl. rewrite (digit_char_is_digit _ Hm), (digit_char_value _ Hm).
    destruct (n / 10 =? 0) eqn:E.
    + apply Z.eqb_eq in E. simpl. split; [reflexivity|lia].
    + apply Z.eqb_neq in E.
      destruct (IH (n / 10)) as [H1 H2].
      { split; [apply Z.div_pos; lia|].
        apply Z.div_lt_upper_bound; lia. }
      simpl. rewrite H1, H2. split; [reflexivity|lia].
Qed.

Lemma rev_digits_nonempty (fuel : nat) (n : Z) : rev_digits (S fuel) n <> [].
Proof. simpl. discriminate. Qed.

Lemma str_nat_fuel (n : Z) : 0 <= n -> 0 <= n < 2 ^ Z.of_nat (S (Z.to_nat (Z.log2 n))).
Proof.
  intros Hn. split; [assumption|].
  rewrite Nat2Z.inj_succ, Z2Nat.id by apply Z.log2_nonneg.
  destruct (Z.eq_dec n 0) as [->|Hz]; [reflexivity|].
  apply Z.log2_spec. lia.
Qed.

Lemma str_nat_digit_run (n : Z) : 0 <= n -> digit_run (str_nat n) = true.
Proof.
  intros Hn. apply digit_run_intro.
  - unfold str_nat. intros H. apply (f_equal (@rev ascii)) in H.
    rewrite rev_involutive in H. now apply rev_digits_nonempty in H.
  - unfold str_nat. rewrite all_digits_rev.
    now apply rev_digits_spec, str_nat_fuel.
Qed.

Lemma str_nat_value (n : Z) : 0 <= n -> digits_value 0 (str_nat n) = n.
Proof.
  intros Hn. unfold str_nat. rewrite digits_value_rev.
  now apply rev_digits_spec, str_nat_fuel.
Qed.

Lemma str_nonneg (n : Z) : 0 <= n -> str n = str_nat n.
Proof. intros Hn. unfold str. now rewrite (proj2 (Z.ltb_ge n 0)). Qed.

Lemma str_digit_run (n : Z) : 0 <= n -> digit_run (str n) = true.
Proof. intros Hn. rewrite str_nonneg by assumption. now apply str_nat_digit_run. Qed.

Lemma lstrip_nonspace (c : ascii) (r : pystr) :
  is_space c = false -> lstrip (c :: r) = c :: r.
Proof. intros H. simpl. now rewrite H. Qed.

Lemma rstrip_nonspace (c : ascii) (s : pystr) :
  is_space c = false -> rstrip (s ++ [c]) = s ++ [c].
Proof.
  intros H. unfold rstrip. rewrite rev_app_distr. simpl.
  rewrite H. simpl. now rewrite rev_involutive.
Qed.

Lemma all_digits_last (s : pystr) (c : ascii) :
  all_digits (s ++ [c]) = true -> is_digit c = true.
Proof.
  rewrite all_digits_app. simpl. rewrite andb_true_r.
  intros H. now apply andb_true_iff in H.
Qed.

Lemma rstrip_ends_in_digit_run (s d : pystr) :
  digit_run d = true -> rstrip (s ++ d) = s ++ d.
Proof.
  intros Hd. destruct (exists_last (digit_run_nonempty _ Hd)) as (d' & c & ->).
  apply digit_run_all_digits, all_digits_last, is_digit_not_space in Hd.
  rewrite app_assoc. now apply rstrip_nonspace.
Qed.

Lemma strip_digit_run (s : pystr) : digit_run s = true -> strip s = s.
Proof.
  intros Hs. unfold strip. destruct s as [|c r]; [discriminate|].
  assert (Hc : is_space c = false).
  { apply is_digit_not_space. simpl in Hs. now apply andb_true_iff in Hs. }
  rewrite lstrip_nonspace by assumption.
  now apply (rstrip_ends_in_digit_run []).
Qed.

Lemma int_literal_digit_run (s : pystr) :
  digit_run s = true -> int_literal s = Some (digits_value 0 s).
Proof.
  intros Hs. unfold int_literal. rewrite strip_digit_run by assumption.
  destruct s as [|c r]; [discriminate|].
  assert (Hc : is_digit c = true) by (simpl in Hs; now apply andb_true_iff in Hs).
  rewrite !(is_digit_neq c) by (assumption || reflexivity).
  unfold parse_digits. now rewrite Hs.
Qed.

Lemma int_literal_str (n : Z) : int_literal (str n) = Some n.
Proof.
  destruct (Z.ltb_spec n 0) as [Hneg|Hpos].
  - unfold str. rewrite (proj2 (Z.ltb_lt n 0)) by assumption.
    assert (Hrun : digit_run (str_nat (- n)) = true) by (apply str_nat_digit_run; lia).
    unfold int_literal, strip.
    rewrite lstrip_nonspace by reflexivity.
    change ("-"%char :: str_nat (- n)) with (["-"%char] ++ str_nat (- n)).
    rewrite (rstrip_ends_in_digit_run ["-"%char]) by assumption.
    simpl. unfold parse_digits. rewrite Hrun. simpl.
    rewrite str_nat_value by lia. f_equal. lia.
  - rewrite int_literal_digit_run by now apply str_digit_run.
    rewrite str_nonneg by assumption. now rewrite str_nat_value.
Qed.

Lemma int_Ok_iff (s : pystr) (n : Z) : int_ s = Ok n <-> int_literal s = Some n.
Proof.
  unfold int_. destruct (int_literal s) as [m|].
  - split; congruence.
  - destruct (int_literal (c_string s)); split; discriminate.
Qed.

Lemma int_raise (s : pystr) :
  int_literal s = None -> exists msg, int_ s = Raise (ValueError msg).
Proof.
  intros H. unfold int_. rewrite H.
  destruct (int_literal (c_string s)); now eexists.
Qed.

Lemma int_raise_inv (s : pystr) (e : exn) :
  int_ s = Raise e -> int_literal s = None.
Proof. unfold int_. now destruct (int_literal s). Qed.

Lemma int_str (n : Z) : int_ (str n) = Ok n.
Proof. unfold int_. now rewrite int_literal_str. Qed.

Lemma int_digit_run (s : pystr) :
  digit_run s = true -> int_ s = Ok (digits_value 0 s).
Proof. intros Hs. unfold int_. now rewrite int_literal_digit_run. Qed.

(** ** [split] and [join] *)

Section SplitJoin.
Variable sep : ascii.

Lemma split_nonempty (s : pystr) : split sep s <> [].
Proof.
  destruct s as [|c r]; simpl; [discriminate|].
  destruct (ascii_eqb c sep); [discriminate|].
  destruct (split sep r); discriminate.
Qed.

Lemma split_no_sep (c : pystr) : sep ∉ c -> split sep c = [c].
Proof.
  induction c as [|x c IH]; intros Hc; [reflexivity|].
  apply not_elem_of_cons in Hc as [Hx Hc]. simpl.
  rewrite (proj2 (ascii_eqb_neq x sep)) by congruence.
  now rewrite IH.
Qed.

Lemma split_app_sep (q c : pystr) :
  sep ∉ c -> split sep (q ++ sep :: c) = split sep q ++ [c].
Proof.
  intros Hc. induction q as [|x q IH]; simpl.
  - now rewrite ascii_eqb_refl, split_no_sep.
  - destruct (ascii_eqb x sep); rewrite IH; [reflexivity|].
    pose proof (split_nonempty q) as Hq.
    destruct (split sep q); [contradiction|reflexivity].
Qed.

Lemma last_sep_decomp (s : pystr) :
  sep ∉ s \/ exists q c, s = q ++ sep :: c /\ sep ∉ c.
Proof.
  induction s as [|x s [IH|(q & c & -> & Hc)]].
  - left. apply not_elem_of_nil.
  - destruct (ascii_eqb x sep) eqn:E.
    + apply ascii_eqb_eq in E as ->. right. now exists [], s.
    + apply ascii_eqb_neq in E. left. apply not_elem_of_cons. split; [congruence|assumption].
  - right. now exists (x :: q), c.
Qed.

Lemma join_split (s : pystr) : join [sep] (split sep s) = s.
Proof.
  induction s as [|x s IH]; [reflexivity|].
  pose proof (split_nonempty s) as Hs. simpl.
  destruct (ascii_eqb x sep) eqn:E.
  - apply ascii_eqb_eq in E as ->.
    destruct (split sep s) as [|w ws]; [contradiction|].
    change (join [sep] ([] :: w :: ws)) with ([] ++ [sep] ++ join [sep] (w :: ws)).
    now rewrite IH.
  - destruct (split sep s) as [|w ws]; [contradiction|].
    destruct ws as [|w' ws].
    + simpl in *. now rewrite IH.
    + change (join [sep] ((x :: w) :: w' :: ws))
        with (x :: (w ++ [sep] ++ join [sep] (w' :: ws))).
      now rewrite <- IH.
Qed.

Lemma join_snoc (cs : list pystr) (c : pystr) :
  cs <> [] -> join [sep] (cs ++ [c]) = join [sep] cs ++ [sep] ++ c.
Proof.
  induction cs as [|w cs IH]; intros Hcs; [contradiction|].
  destruct cs as [|w' cs]; [reflexivity|].
  change (join [sep] ((w :: w' :: cs) ++ [c]))
    with (w ++ [sep] ++ join [sep] ((w' :: cs) ++ [c])).
  rewrite IH by discriminate.
  change (join [sep] (w :: w' :: cs)) with (w ++ [sep] ++ join [sep] (w' :: cs)).
  now rewrite <- !app_assoc.
Qed.

Lemma split_structure (s : pystr) :
  exists cs c, split sep s = cs ++ [c] /\ (sep ∉ c) /\ s = before_last sep cs ++ c.
Proof.
  destruct (last_sep_decomp s) as [Hs|(q & c & -> & Hc)].
  - exists [], s. now rewrite split_no_sep.
  - exists (split sep q), c. rewrite split_app_sep by assumption.
    repeat split; [assumption|].
    pose proof (split_nonempty q) as Hq. unfold before_last.
    destruct (split sep q) eqn:E; [contradiction|].
    rewrite <- E, join_split. now rewrite <- app_assoc.
Qed.

Lemma join_before_last (cs : list pystr) (c : pystr) :
  join [sep] (cs ++ [c]) = before_last sep cs ++ c.
Proof.
  destruct cs as [|w cs]; [reflexivity|].
  rewrite join_snoc by discriminate. unfold before_last.
  now rewrite <- app_assoc.
Qed.

Lemma before_last_end (cs : list pystr) :
  before_last sep cs = [] \/ exists u, before_last sep cs = u ++ [sep].
Proof. destruct cs; [now left|right; now eexists]. Qed.
End SplitJoin.

Lemma digits_no_dot (c : pystr) : all_digits c = true -> "."%char ∉ c.
Proof.
  intros Hc Hin. unfold all_digits in Hc. rewrite forallb_forall in Hc.
  apply list_elem_of_In, Hc in Hin. discriminate.
Qed.

(** ** The pattern [\d+$] *)

Lemma at_dollar_false (s : pystr) (c : ascii) :
  s <> [] -> is_digit c = true -> at_dollar (s ++ [c]) = false.
Proof.
  intros Hs Hc. destruct s as [|x s]; [contradiction|].
  destruct s as [|y s]; simpl; [reflexivity|].
  now destruct (s ++ [c]) eqn:E; [apply app_eq_nil in E as [_ E]|].
Qed.

(** On a run of digits that ends the string the pattern takes the whole
    run. *)
Lemma match_digit_run (d : pystr) :
  digit_run d = true -> match_digits_dollar d = Some (length d).
Proof.
  induction d as [|c d IH]; [discriminate|].
  intros H. simpl in H. apply andb_true_iff in H as [Hc Hd].
  simpl. rewrite Hc. destruct d as [|c' d].
  - reflexivity.
  - now rewrite IH.
Qed.

(** Before a character that is no digit, with a digit run after it, the
    pattern does not match. *)
Lemma match_before_non_digit (u d : pystr) (x : ascii) :
  is_digit x = false -> digit_run d = true ->
  match_digits_dollar (u ++ x :: d) = None.
Proof.
  intros Hx Hd. induction u as [|c u IH]; simpl.
  - now rewrite Hx.
  - rewrite IH. destruct (is_digit c); [|reflexivity].
    destruct (exists_last (digit_run_nonempty _ Hd)) as (d' & y & ->).
    apply digit_run_all_digits, all_digits_last in Hd.
    replace (u ++ x :: d' ++ [y]) with ((u ++ x :: d') ++ [y])
      by now rewrite <- app_assoc.
    rewrite at_dollar_false; [reflexivity| |assumption].
    now destruct u.
Qed.

Lemma subn_scan_skip_all (repl s : pystr) :
  subn_scan repl (length s) s = ([], 0%nat).
Proof. induction s as [|c s IH]; [reflexivity|apply IH]. Qed.

(** The digit run that ends the string is the one match. *)
Lemma subn_scan_trailing_run (repl pre d : pystr) :
  (pre = [] \/ exists u x, pre = u ++ [x] /\ is_digit x = false) ->
  digit_run d = true ->
  subn_scan repl 0 (pre ++ d) = (pre ++ repl, 1%nat).
Proof.
  intros Hpre Hd. induction pre as [|c pre IH].
  - simpl. destruct d as [|c d]; [discriminate|].
    change (subn_scan repl 0 (c :: d)) with
      (match match_digits_dollar (c :: d) with
       | Some (S k) => let '(out, n) := subn_scan repl k d in (repl ++ out, S n)
       | _ => let '(out, n) := subn_scan repl 0 d in (c :: out, n)
       end).
    rewrite match_digit_run by assumption. cbn [length].
    now rewrite subn_scan_skip_all, app_nil_r.
  - destruct Hpre as [Hpre|(u & x & Hpre & Hx)]; [discriminate|].
    assert (Hnone : match_digits_dollar ((c :: pre) ++ d) = None).
    { rewrite Hpre, <- app_assoc. now apply match_before_non_digit. }
    change (subn_scan repl 0 ((c :: pre) ++ d)) with
      (match match_digits_dollar ((c :: pre) ++ d) with
       | Some (S k) =>
           let '(out, n) := subn_scan repl k (pre ++ d) in (repl ++ out, S n)
       | _ => let '(out, n) := subn_scan repl 0 (pre ++ d) in (c :: out, n)
       end).
    rewrite Hnone, IH; [reflexivity|].
    destruct u as [|c' u].
    + left. now injection Hpre.
    + right. exists u, x. split; [now injection Hpre|assumption].
Qed.

Lemma before_last_dot_end (cs : list pystr) :
  before_last "." cs = [] \/
  exists u x, before_last "." cs = u ++ [x] /\ is_digit x = false.
Proof.
  destruct (before_last_end "." cs) as [H|(u & H)]; [now left|right].
  now exists u, "."%char.
Qed.

(** ** [int] accepts exactly the integer texts *)

Lemma lstrip_decomp (s : pystr) :
  exists ws, s = ws ++ lstrip s /\ all_spaces ws = true.
Proof.
  induction s as [|c s (ws & IH & Hws)].
  - now exists [].
  - simpl. destruct (is_space c) eqn:E.
    + exists (c :: ws). split; [now rewrite IH at 1|]. simpl. now rewrite E.
    + now exists [].
Qed.

Lemma lstrip_spaces_app (ws t : pystr) :
  all_spaces ws = true -> lstrip (ws ++ t) = lstrip t.
Proof.
  induction ws as [|c ws IH]; intros H; [reflexivity|].
  simpl in *. apply andb_true_iff in H as [Hc Hws]. rewrite Hc. now apply IH.
Qed.

Lemma all_spaces_rev (s : pystr) : all_spaces (rev s) = all_spaces s.
Proof.
  induction s as [|c s IH]; [reflexivity|].
  unfold all_spaces in *. simpl. rewrite forallb_app, IH. simpl.
  rewrite andb_true_r. apply andb_comm.
Qed.

Lemma rstrip_decomp (s : pystr) :
  exists ws, s = rstrip s ++ ws /\ all_spaces ws = true.
Proof.
  destruct (lstrip_decomp (rev s)) as (ws & H & Hws).
  exists (rev ws). split; [|now rewrite all_spaces_rev].
  unfold rstrip. rewrite <- rev_app_distr, <- H. now rewrite rev_involutive.
Qed.

Lemma rstrip_app_spaces (t ws : pystr) :
  all_spaces ws = true -> rstrip (t ++ ws) = rstrip t.
Proof.
  intros H. unfold rstrip. rewrite rev_app_distr, lstrip_spaces_app; [reflexivity|].
  now rewrite all_spaces_rev.
Qed.

Lemma strip_decomp (s : pystr) :
  exists ws1 ws2,
    s = ws1 ++ strip s ++ ws2 /\ all_spaces ws1 = true /\ all_spaces ws2 = true.
Proof.
  destruct (lstrip_decomp s) as (ws1 & H1 & Hws1).
  destruct (rstrip_decomp (lstrip s)) as (ws2 & H2 & Hws2).
  exists ws1, ws2. unfold strip. now rewrite <- H2, <- H1.
Qed.

Lemma strip_core (ws1 ws2 m : pystr) (c : ascii) :
  all_spaces ws1 = true -> all_spaces ws2 = true ->
  is_space c = false -> digit_run m = true ->
  strip (ws1 ++ (c :: m) ++ ws2) = c :: m /\ strip (ws1 ++ m ++ ws2) = m.
Proof.
  intros H1 H2 Hc Hm. unfold strip. split.
  - rewrite lstrip_spaces_app by assumption.
    change ((c :: m) ++ ws2) with (c :: (m ++ ws2)).
    rewrite lstrip_nonspace by assumption.
    change (c :: m ++ ws2) with ((c :: m) ++ ws2).
    rewrite rstrip_app_spaces by assumption.
    now apply (rstrip_ends_in_digit_run [c]).
  - destruct m as [|x m]; [discriminate|].
    assert (Hx : is_space x = false).
    { apply is_digit_not_space. simpl in Hm. now apply andb_true_iff in Hm. }
    rewrite lstrip_spaces_app by assumption.
    change ((x :: m) ++ ws2) with (x :: (m ++ ws2)).
    rewrite lstrip_nonspace by assumption.
    change (x :: m ++ ws2) with ((x :: m) ++ ws2).
    rewrite rstrip_app_spaces by assumption.
    now apply (rstrip_ends_in_digit_run []).
Qed.

Lemma parse_digits_Some (s : pystr) : is_Some (parse_digits s) <-> digit_run s = true.
Proof.
  unfold parse_digits. destruct (digit_run s); split; intros H; try done.
Qed.

Lemma int_literal_integer_text (s : pystr) :
  is_Some (int_literal s) <-> integer_text s.
Proof.
  split.
  - intros Hs. destruct (strip_decomp s) as (ws1 & ws2 & Hdec & H1 & H2).
    unfold int_literal in Hs. destruct (strip s) as [|c r] eqn:E.
    { now destruct Hs. }
    destruct (ascii_eqb c "-") eqn:Em; [|destruct (ascii_eqb c "+") eqn:Ep].
    + apply ascii_eqb_eq in Em as ->.
      exists ws1, ["-"%char], r, ws2. repeat split; auto.
      apply parse_digits_Some. destruct (parse_digits r); [done|now destruct Hs].
    + apply ascii_eqb_eq in Ep as ->.
      exists ws1, ["+"%char], r, ws2. repeat split; auto.
      now apply parse_digits_Some.
    + exists ws1, [], (c :: r), ws2. repeat split; auto.
      now apply parse_digits_Some.
  - intros (ws1 & sign & ds & ws2 & -> & H1 & H2 & Hsign & Hds).
    unfold int_literal.
    destruct Hsign as [->|[->| ->]].
    + simpl. destruct (strip_core ws1 ws2 ds "x" H1 H2 eq_refl Hds) as [_ ->].
      destruct ds as [|c r]; [discriminate|].
      assert (Hc : is_digit c = true) by (simpl in Hds; now apply andb_true_iff in Hds).
      rewrite !(is_digit_neq c) by (assumption || reflexivity).
      now apply parse_digits_Some.
    + change (ws1 ++ ["+"%char] ++ ds ++ ws2) with (ws1 ++ ("+"%char :: ds) ++ ws2).
      destruct (strip_core ws1 ws2 ds "+" H1 H2 eq_refl Hds) as [-> _].
      simpl. now apply parse_digits_Some.
    + change (ws1 ++ ["-"%char] ++ ds ++ ws2) with (ws1 ++ ("-"%char :: ds) ++ ws2).
      destruct (strip_core ws1 ws2 ds "-" H1 H2 eq_refl Hds) as [-> _].
      simpl. apply parse_digits_Some in Hds as [n ->]. done.
Qed.

(** ** The version-number resolver: [get_vcs_number], [get_branch_number]
    and the substitution of [get_build_number] *)

Example get_vcs_number_1337 : get_vcs_number "7.3.0.1337" = Ok 1337.
Proof. reflexivity. Qed.
Example get_vcs_number_2000 : get_vcs_number "7.1.0.2000" = Ok 2000.
Proof. reflexivity. Qed.
Example get_branch_number_730 : get_branch_number "7.3.0.1337" = "7.3.0".
Proof. reflexivity. Qed.
Example str_1337 : str 1337 = "1337" /\ str 0 = "0" /\ str (-5) = "-5".
Proof. repeat split. Qed.
Example re_sub_730 : re_subn_digits_dollar (str 1337) "7.3.0.1000" = ("7.3.0.1337" : pystr, 1%nat).
Proof. reflexivity. Qed.

Lemma get_vcs_number_last (B : pystr) (cs : list pystr) (c : pystr) :
  split "." B = cs ++ [c] ->
  get_vcs_number B =
    match int_literal c with
    | Some n => Ok n
    | None => Raise (Exception (vcs_number_error B))
    end.
Proof.
  intros H. unfold get_vcs_number, last_item. rewrite H, last_snoc.
  unfold int_. destruct (int_literal c); [reflexivity|].
  now destruct (int_literal (c_string c)).
Qed.

Lemma get_branch_number_init (B : pystr) (cs : list pystr) (c : pystr) :
  split "." B = cs ++ [c] -> get_branch_number B = join "." cs.
Proof.
  intros H. unfold get_branch_number, but_last. now rewrite H, removelast_last.
Qed.

Lemma str_no_dot (n : Z) : "."%char ∉ str n.
Proof.
  unfold str. destruct (n <? 0) eqn:E.
  - apply not_elem_of_cons. split; [discriminate|].
    apply digits_no_dot, digit_run_all_digits, str_nat_digit_run.
    apply Z.ltb_lt in E. lia.
  - apply digits_no_dot, digit_run_all_digits, str_nat_digit_run.
    now apply Z.ltb_ge in E.
Qed.

Lemma split_before_last (cs : list pystr) (c : pystr) :
  "."%char ∉ c -> exists cs', split "." (before_last "." cs ++ c) = cs' ++ [c].
Proof.
  intros Hc. destruct cs as [|w cs].
  - exists []. now apply split_no_sep.
  - exists (split "." (join ["."%char] (w :: cs))).
    unfold before_last. rewrite <- app_assoc. now apply split_app_sep.
Qed.

(** Re-injecting into a string whose last component is a digit run. *)
Lemma inject_last_component (B : pystr) (cs : list pystr) (c repl : pystr) :
  split "." B = cs ++ [c] -> digit_run c = true ->
  re_subn_digits_dollar repl B = (before_last "." cs ++ repl, 1%nat).
Proof.
  intros Hsplit Hc.
  destruct (split_structure "." B) as (cs' & c' & Hs & _ & HB).
  rewrite Hsplit in Hs. apply app_inj_tail in Hs as [<- <-].
  rewrite HB at 1. apply subn_scan_trailing_run; [|assumption].
  apply before_last_dot_end.
Qed.

Lemma get_vcs_number_after_inject (B : pystr) (c : pystr) (n : Z) :
  last (split "." B) = Some c -> digit_run c = true ->
  get_vcs_number (re_sub_digits_dollar (str n) B) = Ok n.
Proof.
  intros Hlast Hc.
  destruct (split_structure "." B) as (cs & c' & Hs & _ & _).
  rewrite Hs, last_snoc in Hlast. injection Hlast as ->.
  unfold re_sub_digits_dollar. rewrite (inject_last_component B cs c) by assumption.
  simpl. destruct (split_before_last cs (str n) (str_no_dot n)) as (cs' & H).
  rewrite (get_vcs_number_last _ cs' (str n)) by assumption.
  now rewrite int_literal_str.
Qed.

Lemma valid_build_number_components (B : pystr) (cs : list pystr) (c : pystr) :
  valid_build_number B = true -> split "." B = cs ++ [c] -> digit_run c = true.
Proof.
  unfold valid_build_number. intros H Hs. rewrite Hs, forallb_app in H.
  apply andb_true_iff in H as [_ H]. simpl in H. now rewrite andb_true_r in H.
Qed.

(** C2 (as amended).  For a valid build number [B] with branch number [p]
    (the components before the last, joined by dots) and vcs number [v]
    (the value of the last component): [get_branch_number B] is [p],
    [get_vcs_number B] is [v], and substituting [v] back gives [p] followed
    by the decimal form of [v].  That is [B] itself exactly when the last
    component of [B] is the decimal form of [v], that is, has no leading
    zeros. *)
Theorem build_number_round_trip (B : pystr) :
  valid_build_number B = true ->
  exists (cs : list pystr) (c : pystr) (v : Z),
    split "." B = cs ++ [c] /\ v = digits_value 0 c /\ 0 <= v /\
    get_branch_number B = join "." cs /\
    get_vcs_number B = Ok v /\
    re_sub_digits_dollar (str v) B = join "." (cs ++ [str v]) /\
    (re_sub_digits_dollar (str v) B = B <-> c = str v).
Proof.
  intros Hvalid.
  destruct (split_structure "." B) as (cs & c & Hs & _ & HB).
  pose proof (valid_build_number_components B cs c Hvalid Hs) as Hc.
  exists cs, c, (digits_value 0 c).
  assert (Hsub : re_sub_digits_dollar (str (digits_value 0 c)) B
                 = before_last "." cs ++ str (digits_value 0 c)).
  { unfold re_sub_digits_dollar. now rewrite (inject_last_component B cs c). }
  repeat split.
  - assumption.
  - apply digits_value_nonneg; [lia|now apply digit_run_all_digits].
  - now apply (get_branch_number_init B cs c).
  - rewrite (get_vcs_number_last B cs c) by assumption.
    now rewrite int_literal_digit_run.
  - rewrite Hsub. symmetry. apply join_before_last.
  - rewrite Hsub. intros H. rewrite HB in H. apply app_inv_head in H. now symmetry.
  - intros Heq. rewrite Hsub, <- Heq. now symmetry.
Qed.

Lemma build_number_round_trip_witness :
  valid_build_number "7.3.0.1337" = true /\
  exists (cs : list pystr) (c : pystr) (v : Z),
    split "." ("7.3.0.1337" : pystr) = cs ++ [c] /\ v = digits_value 0 c /\ 0 <= v /\
    get_branch_number "7.3.0.1337" = join "." cs /\
    get_vcs_number "7.3.0.1337" = Ok v /\
    re_sub_digits_dollar (str v) "7.3.0.1337" = join "." (cs ++ [str v]) /\
    (re_sub_digits_dollar (str v) "7.3.0.1337" = ("7.3.0.1337" : pystr) <-> c = str v).
Proof.
  split; [reflexivity|].
  apply (build_number_round_trip "7.3.0.1337"). reflexivity.
Defined.

(** C2 as stated fails: the last component [0042] is a non-negative integer
    with vcs number 42, and substituting 42 back gives [7.3.0.42]. *)
Lemma build_number_round_trip_leading_zeros :
  valid_build_number "7.3.0.0042" = true /\
  get_branch_number "7.3.0.0042" = "7.3.0" /\
  get_vcs_number "7.3.0.0042" = Ok 42 /\
  re_sub_digits_dollar (str 42) "7.3.0.0042" = "7.3.0.42" /\
  re_sub_digits_dollar (str 42) "7.3.0.0042" <> ("7.3.0.0042" : pystr).
Proof. repeat split. discriminate. Qed.

(** C3.  In a string that ends in a run of digits [d] (preceded by [pre],
    which does not end in a digit), substituting the decimal form of a
    non-negative [n] for the pattern replaces that run only: the result is
    [pre], character for character, followed by the decimal form of [n],
    and exactly one substitution is made.  The decimal form of [n] is a
    run of digits that [int] reads back as [n]. *)
Theorem inject_replaces_trailing_run (pre d : pystr) (n : Z) :
  digit_run d = true ->
  (pre = [] \/ exists u x, pre = u ++ [x] /\ is_digit x = false) ->
  0 <= n ->
  re_subn_digits_dollar (str n) (pre ++ d) = (pre ++ str n, 1%nat) /\
  digit_run (str n) = true /\
  int_ (str n) = Ok n.
Proof.
  intros Hd Hpre Hn. split; [|split].
  - now apply subn_scan_trailing_run.
  - now apply str_digit_run.
  - apply int_str.
Qed.

Lemma inject_replaces_trailing_run_witness :
  re_subn_digits_dollar "1337" "10.3.0.1000" = ("10.3.0.1337" : pystr, 1%nat) /\
  digit_run "1337" = true /\
  int_ "1337" = Ok 1337.
Proof.
  exact (inject_replaces_trailing_run "10.3.0." "1000" 1337
           eq_refl
           (or_intror (ex_intro _ ("10.3.0" : pystr)
                         (ex_intro _ "."%char (conj eq_refl eq_refl))))
           (proj1 (Z.leb_le 0 1337) eq_refl)).
Defined.

(** Every string that ends in a digit splits in this way. *)
Lemma trailing_run_decomp (s : pystr) (c : ascii) :
  is_digit c = true ->
  exists pre d, s ++ [c] = pre ++ d /\ digit_run d = true /\
    (pre = [] \/ exists u x, pre = u ++ [x] /\ is_digit x = false).
Proof.
  intros Hc. induction s as [|y s IH] using rev_ind.
  - exists [], [c]. repeat split; [|now left]. simpl. now rewrite Hc.
  - destruct (is_digit y) eqn:Hy.
    + destruct IH as (pre & d & Heq & Hd & Hpre).
      destruct (exists_last (digit_run_nonempty _ Hd)) as (d' & z & ->).
      rewrite app_assoc in Heq. apply app_inj_tail in Heq as [-> <-].
      exists pre, (d' ++ [y] ++ [c]). repeat split.
      * now rewrite <- !app_assoc.
      * apply digit_run_intro; [now destruct d'|].
        apply digit_run_all_digits in Hd.
        rewrite all_digits_app in Hd |- *. apply andb_true_iff in Hd as [Hd' _].
        rewrite Hd'. simpl. now rewrite Hy, Hc.
      * assumption.
    + exists (s ++ [y]), [c]. repeat split.
      * simpl. now rewrite Hc.
      * right. now exists s, y.
Qed.

(** ** Occurrence of one string in another *)

Lemma starts_with_spec (p s r : pystr) : starts_with p s = Some r <-> s = p ++ r.
Proof.
  revert s. induction p as [|a p IH]; intros s; simpl.
  - split; congruence.
  - destruct s as [|b s]; [split; discriminate|].
    destruct (ascii_eqb a b) eqn:E.
    + apply ascii_eqb_eq in E as ->. rewrite IH. split; congruence.
    + apply ascii_eqb_neq in E. split; [discriminate|congruence].
Qed.

Lemma containsb_spec (needle hay : pystr) :
  containsb needle hay = true <-> contains needle hay.
Proof.
  unfold contains. induction hay as [|c hay IH].
  - simpl. destruct (starts_with needle []) as [r|] eqn:E.
    + apply starts_with_spec in E. split; [|reflexivity]. intros _. now exists [], r.
    + split; [discriminate|]. intros (b & a & H). exfalso.
      symmetry in H. apply app_eq_nil in H as [-> H]. simpl in H.
      assert (E' : starts_with needle [] = Some a) by now apply starts_with_spec.
      congruence.
  - simpl. destruct (starts_with needle (c :: hay)) as [r|] eqn:E.
    + apply starts_with_spec in E. split; [|reflexivity]. intros _. now exists [], r.
    + rewrite IH. split.
      * intros (b & a & ->). now exists (c :: b), a.
      * intros (b & a & H). destruct b as [|x b].
        { exfalso. simpl in H.
          assert (E' : starts_with needle (c :: hay) = Some a)
            by now apply starts_with_spec.
          congruence. }
        injection H as -> ->. now exists b, a.
Qed.

Lemma containsb_false (needle hay : pystr) :
  containsb needle hay = false -> ~ contains needle hay.
Proof. intros H Hc. apply containsb_spec in Hc. congruence. Qed.

(** ** [get_vcs_number] on malformed and on unusual build numbers *)

Lemma integer_text_nonempty : ~ integer_text [].
Proof. intros H. apply int_literal_integer_text in H. now destruct H. Qed.

(** C5.  When the last dot-separated component of the build number is empty
    or is no integer text, [get_vcs_number] raises the exception of line 78:
    its message holds the build number as it is and tells to check the
    build number format of the TeamCity configuration. *)
Theorem get_vcs_number_malformed (B c : pystr) :
  last (split "." B) = Some c ->
  c = [] \/ ~ integer_text c ->
  get_vcs_number B = Raise (Exception (vcs_number_error B)) /\
  contains B (vcs_number_error B) /\
  contains "Check the build number format in your TeamCity configuration."
    (vcs_number_error B).
Proof.
  intros Hlast Hc.
  assert (Hno : ~ integer_text c).
  { destruct Hc as [->|Hc]; [apply integer_text_nonempty|assumption]. }
  destruct (split_structure "." B) as (cs & c' & Hs & _ & _).
  rewrite Hs, last_snoc in Hlast. injection Hlast as ->.
  repeat split.
  - rewrite (get_vcs_number_last B cs c) by assumption.
    destruct (int_literal c) as [n|] eqn:E; [|reflexivity].
    exfalso. apply Hno, int_literal_integer_text. now exists n.
  - unfold vcs_number_error. now eexists _, _.
  - unfold vcs_number_error. exists []. now eexists.
Qed.

Lemma get_vcs_number_malformed_witness :
  get_vcs_number "7.3.0." = Raise (Exception (vcs_number_error "7.3.0.")) /\
  contains "7.3.0." (vcs_number_error "7.3.0.") /\
  contains "Check the build number format in your TeamCity configuration."
    (vcs_number_error "7.3.0.").
Proof.
  apply (get_vcs_number_malformed "7.3.0." []).
  - reflexivity.
  - left. reflexivity.
Defined.

Example get_vcs_number_trailing_dot :
  get_vcs_number "7.3.0." =
  Raise (Exception "Check the build number format in your TeamCity configuration. 7.3.0. is not a valid build number, it needs to end with the vcs number.").
Proof. reflexivity. Qed.

Example get_vcs_number_letters :
  get_vcs_number "7.3.0.beta" = Raise (Exception (vcs_number_error "7.3.0.beta")).
Proof. reflexivity. Qed.

(** C10.  [get_vcs_number] accepts last components that are no digit runs:
    a signed or a padded integer text is converted by [int], and the result
    may be negative. *)
Theorem get_vcs_number_signed_or_padded :
  last (split "." ("7.3.0.-5" : pystr)) = Some ("-5" : pystr) /\
  digit_run "-5" = false /\
  get_vcs_number "7.3.0.-5" = Ok (-5) /\
  last (split "." ("7.3.0. 42" : pystr)) = Some (" 42" : pystr) /\
  digit_run " 42" = false /\
  get_vcs_number "7.3.0. 42" = Ok 42 /\
  exists (B c : pystr) (v : Z),
    last (split "." B) = Some c /\ digit_run c = false /\
    get_vcs_number B = Ok v /\ v < 0.
Proof.
  repeat split.
  exists ("7.3.0.-5" : pystr), ("-5" : pystr), (-5). repeat split.
Qed.

(** ** Files *)

Lemma lookup_file_elem (name data : pystr) (files : list (pystr * pystr)) :
  lookup_file name files = Some data -> (name, data) ∈ files.
Proof.
  induction files as [|[n d] files IH]; cbn [lookup_file]; [discriminate|].
  destruct (decide (n = name)) as [->|Hne].
  - intros [= ->]. apply elem_of_cons. now left.
  - intros H. apply elem_of_cons. right. now apply IH.
Qed.

Lemma lookup_file_is_Some (name : pystr) (files : list (pystr * pystr)) :
  name ∈ map fst files -> is_Some (lookup_file name files).
Proof.
  induction files as [|[n d] files IH]; cbn [lookup_file map fst].
  - intros H. now apply elem_of_nil in H.
  - intros H. destruct (decide (n = name)) as [->|Hne]; [done|].
    apply elem_of_cons in H as [H|H]; [congruence|now apply IH].
Qed.

Lemma lookup_file_distinct (name data : pystr) (files : list (pystr * pystr)) :
  NoDup (map fst files) -> (name, data) ∈ files ->
  lookup_file name files = Some data.
Proof.
  induction files as [|[n d] files IH]; cbn [lookup_file map fst]; intros Hnd Hin.
  - now apply elem_of_nil in Hin.
  - apply NoDup_cons in Hnd as [Hn Hnd].
    apply elem_of_cons in Hin as [[= -> ->]|Hin].
    + now rewrite decide_True.
    + destruct (decide (n = name)) as [->|Hne]; [|now apply IH].
      exfalso. apply Hn.
      change name with (fst (name, data)). change (map fst files) with (fst <$> files).
      now apply list_elem_of_fmap_2.
Qed.

Lemma lookup_store_eq (name data : pystr) (files : list (pystr * pystr)) :
  lookup_file name (store_file name data files) = Some data.
Proof.
  induction files as [|[n d] files IH]; cbn [store_file lookup_file].
  - now rewrite decide_True.
  - destruct (decide (n = name)) as [->|Hne]; cbn [lookup_file].
    + now rewrite decide_True.
    + now rewrite decide_False.
Qed.

Lemma lookup_store_ne (name other data : pystr) (files : list (pystr * pystr)) :
  other <> name ->
  lookup_file other (store_file name data files) = lookup_file other files.
Proof.
  intros Hne. induction files as [|[n d] files IH]; cbn [store_file lookup_file].
  - now rewrite decide_False.
  - destruct (decide (n = name)) as [->|Hn]; cbn [lookup_file].
    + now rewrite !decide_False by congruence.
    + destruct (decide (n = other)); [reflexivity|assumption].
Qed.

Lemma store_file_names (name data : pystr) (files : list (pystr * pystr)) :
  map fst (store_file name data files) =
  if decide (name ∈ map fst files) then map fst files else map fst files ++ [name].
Proof.
  induction files as [|[n d] files IH]; cbn [store_file map fst].
  - rewrite decide_False; [reflexivity|apply not_elem_of_nil].
  - destruct (decide (n = name)) as [->|Hn]; cbn [map fst].
    + rewrite decide_True; [reflexivity|]. apply elem_of_cons. now left.
    + rewrite IH. destruct (decide (name ∈ map fst files)) as [Hin|Hout].
      * rewrite decide_True; [reflexivity|]. apply elem_of_cons. now right.
      * rewrite decide_False; [reflexivity|].
        intros H. apply elem_of_cons in H as [H|H]; congruence.
Qed.

Lemma store_file_distinct (name data : pystr) (files : list (pystr * pystr)) :
  NoDup (map fst files) -> NoDup (map fst (store_file name data files)).
Proof.
  intros Hnd. rewrite store_file_names.
  destruct (decide (name ∈ map fst files)) as [Hin|Hout]; [assumption|].
  apply NoDup_app. repeat split; [assumption| |apply NoDup_singleton].
  intros x Hx Hx'. apply list_elem_of_singleton in Hx'. congruence.
Qed.

Lemma glob_dependency_files (w : world) :
  glob_vcsnumber_txt w = (Ok (map fst (dependency_files w)), w).
Proof.
  unfold glob_vcsnumber_txt, dependency_files. do 2 f_equal.
  induction (cwd w) as [|[n d] files IH]; [reflexivity|].
  simpl. rewrite !filter_cons. simpl.
  destruct (decide (matches_vcsnumber_txt n = true)); simpl; now rewrite IH.
Qed.

Lemma bind_unfold {A B} (c : M A) (k : A -> M B) (w : world) :
  bind c k w =
  match c w with
  | (Ok a, w') => k a w'
  | (Raise e, w') => (Raise e, w')
  end.
Proof. reflexivity. Qed.

Lemma bind_ok {A B} (c : M A) (k : A -> M B) (w w' : world) (a : A) :
  c w = (Ok a, w') -> bind c k w = k a w'.
Proof. intros H. now rewrite bind_unfold, H. Qed.

Lemma get_vcs_number_from_file_eq (name : pystr) (w : world) :
  get_vcs_number_from_file name w =
  match lookup_file name (cwd w) with
  | Some data => (int_ data, w)
  | None => (Raise (IOError name), w)
  end.
Proof.
  unfold get_vcs_number_from_file, bind, read_file, lift.
  now destruct (lookup_file name (cwd w)).
Qed.

Lemma for_each_cons {A B} (f : A -> M B) (x : A) (xs : list A) (w : world) :
  for_each f (x :: xs) w =
  match f x w with
  | (Ok y, w') =>
      match for_each f xs w' with
      | (Ok ys, w'') => (Ok (y :: ys), w'')
      | (Raise e, w'') => (Raise e, w'')
      end
  | (Raise e, w') => (Raise e, w')
  end.
Proof. reflexivity. Qed.

Lemma for_each_read (w : world) (names : list pystr) :
  Forall (fun n => n ∈ map fst (cwd w)) names ->
  for_each get_vcs_number_from_file names w = (int_all (read_all w names), w).
Proof.
  induction names as [|n names IH]; intros Hall; [reflexivity|].
  apply Forall_cons in Hall as [Hn Hall].
  apply lookup_file_is_Some in Hn as [d Hd].
  assert (Hread : read_all w (n :: names) = d :: read_all w names).
  { unfold read_all. simpl. now rewrite Hd. }
  rewrite for_each_cons, get_vcs_number_from_file_eq, Hd, Hread.
  cbn [int_all]. destruct (int_ d) as [v|e]; [|reflexivity].
  rewrite IH by assumption.
  now destruct (int_all (read_all w names)).
Qed.

Lemma dependency_names_in_cwd (w : world) :
  Forall (fun n => n ∈ map fst (cwd w)) (map fst (dependency_files w)).
Proof.
  apply Forall_forall. intros n Hn.
  change (map fst (dependency_files w)) with (fst <$> dependency_files w) in Hn.
  apply list_elem_of_fmap in Hn as (e & -> & He).
  apply list_elem_of_filter in He as [_ He].
  change (map fst (cwd w)) with (fst <$> cwd w). now apply list_elem_of_fmap_2.
Qed.

(** What [get_largest_dependency_vcs_number] computes, in one equation. *)
Lemma largest_dependency_unfold (w : world) :
  get_largest_dependency_vcs_number w =
  match dependency_files w with
  | [] => (Ok 0, w)
  | _ =>
      (match int_all (read_all w (map fst (dependency_files w))) with
       | Ok numbers => max_seq numbers
       | Raise e => Raise e
       end, w)
  end.
Proof.
  unfold get_largest_dependency_vcs_number.
  rewrite bind_unfold, glob_dependency_files.
  pose proof (dependency_names_in_cwd w) as Hin.
  destruct (dependency_files w) as [|e es] eqn:E; [reflexivity|].
  cbn [map] in *. rewrite bind_unfold, for_each_read by assumption.
  unfold lift. now destruct (int_all (read_all w (e.1 :: map fst es))).
Qed.

(** With distinct names, reading the dependency files gives their
    contents. *)
Lemma read_all_distinct (w : world) :
  distinct_names w ->
  read_all w (map fst (dependency_files w)) = map snd (dependency_files w).
Proof.
  intros Hnd. unfold read_all.
  assert (Hsub : forall e, e ∈ dependency_files w -> e ∈ cwd w).
  { intros e He. now apply list_elem_of_filter in He. }
  induction (dependency_files w) as [|[n d] es IH]; [reflexivity|].
  simpl. rewrite (lookup_file_distinct n d).
  - simpl. f_equal. apply IH. intros e He. apply Hsub, elem_of_cons. now right.
  - assumption.
  - apply Hsub, elem_of_cons. now left.
Qed.

(** In any case, what is read from a dependency file is the contents of a
    dependency file. *)
Lemma read_all_dependency (w : world) (data : pystr) :
  data ∈ read_all w (map fst (dependency_files w)) ->
  exists name, (name, data) ∈ dependency_files w.
Proof.
  unfold read_all. intros Hin.
  change (data ∈ (fun n => default [] (lookup_file n (cwd w))) <$>
                 (fst <$> dependency_files w)) in Hin.
  apply list_elem_of_fmap in Hin as (n & -> & Hn).
  apply list_elem_of_fmap in Hn as ([n' d'] & -> & He). simpl.
  apply list_elem_of_filter in He as [Hm He].
  destruct (lookup_file_is_Some n' (cwd w)) as [d Hd].
  { change n' with (fst (n', d')). change (map fst (cwd w)) with (fst <$> cwd w).
    now apply list_elem_of_fmap_2. }
  rewrite Hd. simpl. exists n'. apply list_elem_of_filter. split; [assumption|].
  now apply lookup_file_elem.
Qed.

(** ** [max] *)

Lemma max2_max (a b : Z) : max2 a b = Z.max a b.
Proof. unfold max2. destruct (Z.ltb_spec a b); lia. Qed.

Lemma max_from_upper (best : Z) (l : list Z) :
  best <= max_from best l /\ forall x, x ∈ l -> x <= max_from best l.
Proof.
  revert best. induction l as [|y l IH]; intros best; simpl.
  - split; [lia|]. intros x Hx. now apply elem_of_nil in Hx.
  - destruct (IH (max2 best y)) as [H1 H2]. rewrite max2_max in *.
    split; [lia|]. intros x Hx.
    apply elem_of_cons in Hx as [->|Hx]; [lia|now apply H2].
Qed.

Lemma max_from_elem (best : Z) (l : list Z) : max_from best l ∈ best :: l.
Proof.
  revert best. induction l as [|y l IH]; intros best; simpl.
  - apply elem_of_cons. now left.
  - specialize (IH (max2 best y)). unfold max2 in *.
    apply elem_of_cons in IH as [IH|IH].
    + rewrite IH. destruct (best <? y).
      * apply elem_of_cons. right. apply elem_of_cons. now left.
      * apply elem_of_cons. now left.
    + apply elem_of_cons. right. apply elem_of_cons. now right.
Qed.

Lemma max_seq_spec (l : list Z) :
  l <> [] -> exists m, max_seq l = Ok m /\ m ∈ l /\ forall x, x ∈ l -> x <= m.
Proof.
  destruct l as [|y l]; [contradiction|]. intros _.
  exists (max_from y l). repeat split.
  - apply max_from_elem.
  - intros x Hx. destruct (max_from_upper y l) as [H1 H2].
    apply elem_of_cons in Hx as [->|Hx]; [assumption|now apply H2].
Qed.

Lemma greatest_unique (l l' : list Z) (m m' : Z) :
  l ≡ₚ l' ->
  m ∈ l -> (forall x, x ∈ l -> x <= m) ->
  m' ∈ l' -> (forall x, x ∈ l' -> x <= m') ->
  m = m'.
Proof.
  intros Hp Hm Hmax Hm' Hmax'.
  assert (m <= m') by (apply Hmax'; now rewrite <- Hp).
  assert (m' <= m) by (apply Hmax; now rewrite Hp).
  lia.
Qed.

(** ** [int] over the contents of several files *)

Lemma int_all_ok (l : list pystr) :
  Forall (fun d => is_Some (int_literal d)) l -> int_all l = Ok (map int_value l).
Proof.
  induction l as [|d l IH]; intros H; [reflexivity|].
  apply Forall_cons in H as [[n Hn] Hl]. simpl.
  unfold int_, int_value. rewrite Hn, IH by assumption. reflexivity.
Qed.

Lemma int_all_ok_inv (l : list pystr) (ns : list Z) :
  int_all l = Ok ns -> Forall (fun d => is_Some (int_literal d)) l.
Proof.
  revert ns. induction l as [|d l IH]; intros ns H; [constructor|].
  simpl in H. destruct (int_ d) as [n|] eqn:E; [|discriminate].
  apply int_Ok_iff in E.
  destruct (int_all l) as [ns'|]; [|discriminate].
  constructor; [done|now apply (IH ns')].
Qed.

Lemma int_all_bad (l : list pystr) :
  Exists (fun d => int_literal d = None) l ->
  exists d msg, d ∈ l /\ int_literal d = None /\
    int_ d = Raise (ValueError msg) /\ int_all l = Raise (ValueError msg).
Proof.
  induction l as [|d l IH]; intros H; [now apply Exists_nil in H|].
  simpl. destruct (int_literal d) as [n|] eqn:E.
  - apply Exists_cons in H as [H|H]; [congruence|].
    destruct (IH H) as (d' & msg & Hin & Hd' & Hmsg & ->).
    apply int_Ok_iff in E. rewrite E.
    exists d', msg. repeat split; try assumption. apply elem_of_cons. now right.
  - destruct (int_raise d E) as (msg & Hmsg). rewrite Hmsg.
    exists d, msg. repeat split; try assumption. apply elem_of_cons. now left.
Qed.

(** ** [repr] of plain text *)

Lemma plain_char_repr (c : ascii) : plain_char c = true -> repr_char squote c = [c].
Proof.
  unfold plain_char, repr_char. intros H.
  apply andb_true_iff in H as [H Hb]. apply andb_true_iff in H as [H Hq].
  apply andb_true_iff in H as [H1 H2].
  apply negb_true_iff in Hb, Hq. apply Z.leb_le in H1. apply Z.ltb_lt in H2.
  rewrite Hq, Hb. simpl.
  rewrite (proj2 (Z.eqb_neq (ascii_code c) 9)) by lia.
  rewrite (proj2 (Z.eqb_neq (ascii_code c) 10)) by lia.
  rewrite (proj2 (Z.eqb_neq (ascii_code c) 13)) by lia.
  rewrite (proj2 (Z.ltb_ge (ascii_code c) 32)) by lia.
  now rewrite (proj2 (Z.leb_gt 127 (ascii_code c))) by lia.
Qed.

Lemma plain_text_repr (s : pystr) :
  plain_text s = true -> repr s = squote :: s ++ [squote].
Proof.
  intros Hs. unfold repr.
  assert (Hq : has_char squote s = false).
  { induction s as [|c s IH]; [reflexivity|].
    simpl in *. apply andb_true_iff in Hs as [Hc Hs]. rewrite IH by assumption.
    unfold plain_char in Hc. apply andb_true_iff in Hc as [Hc _].
    apply andb_true_iff in Hc as [_ Hc]. apply negb_true_iff in Hc.
    apply ascii_eqb_neq in Hc. rewrite orb_false_r. apply ascii_eqb_neq. congruence. }
  rewrite Hq. simpl. do 2 f_equal.
  induction s as [|c s IH]; [reflexivity|].
  simpl in *. apply andb_true_iff in Hs as [Hc Hs].
  apply orb_false_iff in Hq as [_ Hq].
  rewrite plain_char_repr by assumption. simpl. f_equal. now apply IH.
Qed.

Lemma c_string_plain (s : pystr) : plain_text s = true -> c_string s = s.
Proof.
  induction s as [|c s IH]; [reflexivity|].
  simpl. intros H. apply andb_true_iff in H as [Hc Hs].
  assert (Hnul : ascii_eqb c nul = false).
  { apply ascii_eqb_neq. intros ->. discriminate. }
  now rewrite Hnul, IH.
Qed.

Lemma int_error_message_plain (s : pystr) :
  plain_text s = true -> lstrip s = s -> (length s <= 200)%nat ->
  contains s (int_error_message s).
Proof.
  intros Hs Hlead Hlen. unfold int_error_message.
  rewrite c_string_plain, Hlead by assumption.
  rewrite firstn_all2 by lia.
  rewrite plain_text_repr by assumption.
  exists ("invalid literal for int() with base 10: " ++ [squote]), [squote].
  now rewrite <- !app_assoc.
Qed.

Lemma int_plain_message (s msg : pystr) :
  int_ s = Raise (ValueError msg) -> plain_text s = true ->
  msg = int_error_message s.
Proof.
  intros H Hs. unfold int_ in H. rewrite (c_string_plain s Hs) in H.
  destruct (int_literal s); [discriminate|]. congruence.
Qed.

(** ** The dependency aggregator *)

Lemma read_all_parseable (w : world) :
  Forall parseable (dependency_files w) ->
  Forall (fun d => is_Some (int_literal d)) (read_all w (map fst (dependency_files w))).
Proof.
  intros Hall. apply Forall_forall. intros d Hd.
  apply read_all_dependency in Hd as (name & Hin).
  rewrite Forall_forall in Hall. now apply (Hall (name, d)).
Qed.

(** When every dependency file holds an integer text, the call returns. *)
Lemma largest_dependency_total (w : world) :
  Forall parseable (dependency_files w) ->
  exists m, get_largest_dependency_vcs_number w = (Ok m, w).
Proof.
  intros Hall. rewrite largest_dependency_unfold.
  pose proof (read_all_parseable w Hall) as Hread.
  destruct (dependency_files w) as [|e es] eqn:E; [now exists 0|].
  rewrite int_all_ok by assumption.
  destruct (max_seq_spec (map int_value (read_all w (map fst (e :: es)))))
    as (m & -> & _); [discriminate|]. now exists m.
Qed.

Lemma largest_dependency_greatest (w : world) :
  distinct_names w -> dependency_files w <> [] ->
  Forall parseable (dependency_files w) ->
  exists m, get_largest_dependency_vcs_number w = (Ok m, w) /\
    m ∈ dependency_numbers w /\ forall x, x ∈ dependency_numbers w -> x <= m.
Proof.
  intros Hnd Hne Hall. rewrite largest_dependency_unfold.
  pose proof (read_all_parseable w Hall) as Hread.
  rewrite read_all_distinct in * by assumption.
  rewrite int_all_ok by assumption.
  assert (Hnums : map int_value (map snd (dependency_files w)) = dependency_numbers w).
  { unfold dependency_numbers. now rewrite map_map. }
  rewrite Hnums.
  destruct (max_seq_spec (dependency_numbers w)) as (m & -> & Hm).
  { unfold dependency_numbers. now destruct (dependency_files w). }
  destruct (dependency_files w); [contradiction|]. now exists m.
Qed.

Lemma largest_dependency_ok_inv (w : world) (m : Z) (w1 : world) :
  distinct_names w -> get_largest_dependency_vcs_number w = (Ok m, w1) ->
  Forall parseable (dependency_files w).
Proof.
  intros Hnd. rewrite largest_dependency_unfold.
  destruct (dependency_files w) as [|e es] eqn:E; [constructor|].
  rewrite <- E. rewrite read_all_distinct by assumption.
  destruct (int_all (map snd (dependency_files w))) as [ns|] eqn:Ens; [|discriminate].
  intros _. apply int_all_ok_inv in Ens.
  rewrite Forall_forall in Ens. apply Forall_forall. intros [n d] Hin.
  apply Ens. change d with (snd (n, d)).
  change (map snd (dependency_files w)) with (snd <$> dependency_files w).
  now apply list_elem_of_fmap_2.
Qed.

Lemma dependency_files_perm (w w' : world) :
  cwd w' ≡ₚ cwd w -> dependency_files w' ≡ₚ dependency_files w.
Proof. intros Hp. unfold dependency_files. now rewrite Hp. Qed.

(** The names the pattern [vcsnumber*.txt] matches. *)
Lemma matches_vcsnumber_txt_spec (name : pystr) :
  matches_vcsnumber_txt name = true <->
  exists mid, name = "vcsnumber" ++ mid ++ ".txt".
Proof.
  unfold matches_vcsnumber_txt.
  destruct (starts_with "vcsnumber" name) as [rest|] eqn:E.
  - apply starts_with_spec in E. unfold ends_with.
    destruct (starts_with (rev ".txt") (rev rest)) as [r|] eqn:E2.
    + apply starts_with_spec in E2. split; [intros _|reflexivity].
      exists (rev r). rewrite E. f_equal.
      rewrite <- (rev_involutive rest), E2, rev_app_distr.
      now rewrite rev_involutive.
    + split; [discriminate|]. intros (mid & Hmid). exfalso.
      rewrite Hmid in E. apply app_inv_head in E. subst rest.
      rewrite rev_app_distr in E2.
      assert (E3 : starts_with (rev ".txt") (rev ".txt" ++ rev mid) = Some (rev mid))
        by now apply starts_with_spec.
      congruence.
  - split; [discriminate|]. intros (mid & ->). exfalso.
    assert (E3 : starts_with "vcsnumber" ("vcsnumber" ++ mid ++ ".txt")
                 = Some (mid ++ ".txt")) by now apply starts_with_spec.
    congruence.
Qed.

(** C4.  In a working directory that holds each name once, the dependency
    files being the files whose name is [vcsnumber], any text, [.txt]:
    [get_largest_dependency_vcs_number] returns 0 when there is no
    dependency file, the integer of the file when there is one, and
    otherwise the greatest of the integers of the dependency files; the
    value returned does not depend on the order in which the directory
    lists its files. *)
Theorem largest_dependency_vcs_number (w : world) :
  distinct_names w ->
  (forall name data,
     (name, data) ∈ dependency_files w <->
     (name, data) ∈ cwd w /\ exists mid, name = "vcsnumber" ++ mid ++ ".txt") /\
  (dependency_files w = [] -> get_largest_dependency_vcs_number w = (Ok 0, w)) /\
  (forall name data v,
     dependency_files w = [(name, data)] -> int_literal data = Some v ->
     get_largest_dependency_vcs_number w = (Ok v, w)) /\
  (dependency_files w <> [] -> Forall parseable (dependency_files w) ->
   exists m, get_largest_dependency_vcs_number w = (Ok m, w) /\
     m ∈ dependency_numbers w /\ forall x, x ∈ dependency_numbers w -> x <= m) /\
  (forall w' m,
     cwd w' ≡ₚ cwd w ->
     get_largest_dependency_vcs_number w = (Ok m, w) ->
     get_largest_dependency_vcs_number w' = (Ok m, w')).
Proof.
  intros Hnd. split.
  { intros name data. unfold dependency_files.
    rewrite list_elem_of_filter. cbn [fst].
    rewrite matches_vcsnumber_txt_spec. tauto. }
  repeat split.
  - intros H. rewrite largest_dependency_unfold. now rewrite H.
  - intros name data v H Hv.
    destruct (largest_dependency_greatest w Hnd) as (m & -> & Hm & _).
    + now rewrite H.
    + rewrite H. constructor; [|constructor]. now exists v.
    + unfold dependency_numbers in Hm. rewrite H in Hm. simpl in Hm.
      apply list_elem_of_singleton in Hm. unfold int_value in Hm. rewrite Hv in Hm.
      simpl in Hm. now subst.
  - now apply largest_dependency_greatest.
  - intros w' m Hp Hm.
    assert (Hnd' : distinct_names w').
    { unfold distinct_names in *. change (NoDup (fst <$> cwd w')).
      now rewrite Hp. }
    pose proof (dependency_files_perm w w' Hp) as Hdeps.
    pose proof (largest_dependency_ok_inv w m w Hnd Hm) as Hall.
    assert (Hall' : Forall parseable (dependency_files w')) by now rewrite Hdeps.
    destruct (dependency_files w) as [|e es] eqn:E.
    + apply Permutation_nil_r in Hdeps.
      rewrite largest_dependency_unfold, E in Hm.
      rewrite largest_dependency_unfold, Hdeps. congruence.
    + destruct (largest_dependency_greatest w Hnd) as (m1 & H1 & Hin1 & Hmax1);
        [now rewrite E|now rewrite E|].
      destruct (largest_dependency_greatest w' Hnd') as (m2 & H2 & Hin2 & Hmax2);
        [|assumption|].
      { intros Hnil. rewrite Hnil in Hdeps. now apply Permutation_nil_l in Hdeps. }
      rewrite H2. rewrite H1 in Hm. injection Hm as <-.
      f_equal. f_equal.
      apply (greatest_unique (dependency_numbers w') (dependency_numbers w));
        try assumption.
      unfold dependency_numbers.
      change (((fun e => int_value (snd e)) <$> dependency_files w')
              ≡ₚ ((fun e => int_value (snd e)) <$> dependency_files w)).
      now rewrite Hdeps, E.
Qed.

Ltac distinct_by_computation :=
  unfold distinct_names; apply (bool_decide_unpack _); vm_compute; exact I.

Lemma largest_dependency_vcs_number_witness :
  distinct_names world_three_dependencies /\
  dependency_files world_three_dependencies <> [] /\
  Forall parseable (dependency_files world_three_dependencies) /\
  get_largest_dependency_vcs_number world_three_dependencies
    = (Ok 3000, world_three_dependencies) /\
  (("vcsnumber_dep2.txt" : pystr, "3000" : pystr)
     ∈ dependency_files world_three_dependencies) /\
  (("readme.txt" : pystr, "notes" : pystr)
     ∉ dependency_files world_three_dependencies) /\
  get_largest_dependency_vcs_number world_no_name = (Ok 3000, world_no_name) /\
  get_largest_dependency_vcs_number world_no_dependencies
    = (Ok 0, world_no_dependencies).
Proof.
  assert (Hnd : distinct_names world_three_dependencies)
    by distinct_by_computation.
  assert (Hne : dependency_files world_three_dependencies <> []) by discriminate.
  assert (Hall : Forall parseable (dependency_files world_three_dependencies))
    by (repeat constructor; now eexists).
  destruct (largest_dependency_vcs_number world_three_dependencies Hnd)
    as (Hfiles & _ & _ & Hmany & _).
  destruct (Hmany Hne Hall) as (m & Hm & Hin & Hmax).
  assert (H3000 : 3000 <= m).
  { apply Hmax. apply (bool_decide_unpack _). vm_compute. exact I. }
  assert (Hm3000 : m = 3000).
  { change (m ∈ [1000; 3000; 2000]) in Hin.
    apply elem_of_cons in Hin as [Hin|Hin]; [lia|].
    apply elem_of_cons in Hin as [Hin|Hin]; [exact Hin|].
    apply list_elem_of_singleton in Hin. lia. }
  rewrite Hm3000 in Hm.
  split; [exact Hnd|]. split; [exact Hne|]. split; [exact Hall|].
  split; [exact Hm|].
  split.
  { apply Hfiles. split.
    - apply (bool_decide_unpack _). vm_compute. exact I.
    - now exists ("_dep2" : pystr). }
  split.
  { intros H. apply Hfiles in H as [_ (mid & Hmid)]. discriminate. }
  split.
  - assert (Hnd1 : distinct_names world_no_name) by distinct_by_computation.
    destruct (largest_dependency_vcs_number world_no_name Hnd1)
      as (_ & _ & Hone & _).
    apply (Hone "vcsnumber_dep1.txt" "3000" 3000); reflexivity.
  - assert (Hnd0 : distinct_names world_no_dependencies)
      by distinct_by_computation.
    destruct (largest_dependency_vcs_number world_no_dependencies Hnd0)
      as (_ & Hzero & _).
    apply Hzero. reflexivity.
Defined.

Example largest_of_three :
  get_largest_dependency_vcs_number world_three_dependencies
    = (Ok 3000, world_three_dependencies).
Proof. vm_compute. reflexivity. Qed.

Example largest_of_none :
  get_largest_dependency_vcs_number world_no_dependencies
    = (Ok 0, world_no_dependencies).
Proof. vm_compute. reflexivity. Qed.

(** C7 (as amended).  In a working directory that holds each name once and
    in which some file matching [vcsnumber*.txt] holds no integer text,
    [get_largest_dependency_vcs_number] returns no value: it raises the
    [ValueError] that [int] raises for the contents of such a file.  The
    message holds those contents as they are when they are at most 200
    plain characters and do not start with white space. *)
Theorem largest_dependency_unparseable (w : world) :
  distinct_names w ->
  Exists (fun e => int_literal (snd e) = None) (dependency_files w) ->
  exists name data msg,
    (name, data) ∈ dependency_files w /\ int_literal data = None /\
    int_ data = Raise (ValueError msg) /\
    get_largest_dependency_vcs_number w = (Raise (ValueError msg), w) /\
    (plain_text data = true -> lstrip data = data -> (length data <= 200)%nat ->
     contains data msg).
Proof.
  intros Hnd Hbad. rewrite largest_dependency_unfold.
  rewrite read_all_distinct by assumption.
  destruct (int_all_bad (map snd (dependency_files w)))
    as (d & msg & Hin & Hd & Hmsg & ->).
  { apply Exists_exists in Hbad as (e & He & Hnone).
    apply Exists_exists. exists (snd e). split; [|assumption].
    change (e.2 ∈ snd <$> dependency_files w).
    now apply list_elem_of_fmap_2. }
  change (d ∈ snd <$> dependency_files w) in Hin.
  apply list_elem_of_fmap in Hin as ([n d'] & -> & Hin).
  exists n, d', msg. repeat split; try assumption.
  - destruct (dependency_files w); [now apply elem_of_nil in Hin|reflexivity].
  - intros Hplain Hlead Hlen. cbn [snd] in Hmsg.
    rewrite (int_plain_message d' msg Hmsg Hplain).
    now apply int_error_message_plain.
Qed.

Lemma largest_dependency_unparseable_witness :
  distinct_names world_letters /\
  Exists (fun e => int_literal (snd e) = None) (dependency_files world_letters) /\
  get_largest_dependency_vcs_number world_letters
    = (Raise (ValueError "invalid literal for int() with base 10: '12a'"),
       world_letters) /\
  contains "12a" "invalid literal for int() with base 10: '12a'".
Proof.
  assert (Hnd : distinct_names world_letters) by distinct_by_computation.
  assert (Hbad : Exists (fun e => int_literal (snd e) = None)
                   (dependency_files world_letters)).
  { apply Exists_cons_tl. apply Exists_cons_hd. reflexivity. }
  split; [exact Hnd|]. split; [exact Hbad|].
  destruct (largest_dependency_unparseable world_letters Hnd Hbad)
    as (name & data & msg & Hin & Hnone & Hint & Hrun & Hincl).
  assert (Hdata : data = ("12a" : pystr)).
  { change ((name, data) ∈ [("vcsnumber_dep1.txt" : pystr, "1000" : pystr);
                            ("vcsnumber_dep2.txt" : pystr, "12a" : pystr)]) in Hin.
    apply elem_of_cons in Hin as [Hin|Hin].
    - injection Hin as _ ->. discriminate Hnone.
    - apply list_elem_of_singleton in Hin. now injection Hin. }
  subst data.
  assert (Hmsg : msg = ("invalid literal for int() with base 10: '12a'" : pystr)).
  { assert (E : int_ "12a"
                = Raise (ValueError "invalid literal for int() with base 10: '12a'"))
      by reflexivity.
    congruence. }
  subst msg.
  split; [exact Hrun|].
  apply Hincl; [reflexivity|reflexivity|vm_compute; lia].
Defined.

(** C7 as stated fails: a dependency file of two lines makes [int] raise
    its own [ValueError], not the exception of [get_vcs_number], and the
    message shows the line break as a backslash and the letter n, so the
    contents do not occur in it. *)
Lemma largest_dependency_message_escapes :
  distinct_names world_two_lines /\
  dependency_files world_two_lines = [("vcsnumber_dep1.txt" : pystr, two_lines)] /\
  int_literal two_lines = None /\
  get_largest_dependency_vcs_number world_two_lines
    = (Raise (ValueError "invalid literal for int() with base 10: '1000\n2000'"),
       world_two_lines) /\
  ~ contains two_lines "invalid literal for int() with base 10: '1000\n2000'" /\
  get_largest_dependency_vcs_number world_two_lines
    <> (Raise (Exception (vcs_number_error two_lines)), world_two_lines).
Proof.
  split; [distinct_by_computation|].
  split; [reflexivity|]. split; [reflexivity|].
  split; [vm_compute; reflexivity|].
  split; [apply containsb_false; vm_compute; reflexivity|].
  vm_compute. discriminate.
Qed.

Example int_error_message_letters :
  int_ "12a" = Raise (ValueError "invalid literal for int() with base 10: '12a'").
Proof. reflexivity. Qed.

(** ** The own-number reader *)

(** C6.  [get_own_build_number] raises its "not set" exception exactly when
    [BUILD_NUMBER] is absent from the environment or is the empty string;
    it raises nothing else, and otherwise it returns the value of the
    variable as it is.  The world is left as it was. *)
Theorem get_own_build_number_spec (w : world) :
  (get_own_build_number w
     = (Raise (Exception "BUILD_NUMBER not set in environment variables"), w)
   <-> environ w !! ("BUILD_NUMBER" : pystr) = None \/
       environ w !! ("BUILD_NUMBER" : pystr) = Some []) /\
  (forall e w', get_own_build_number w = (Raise e, w') ->
     e = Exception "BUILD_NUMBER not set in environment variables" /\ w' = w) /\
  (forall v, environ w !! ("BUILD_NUMBER" : pystr) = Some v -> v <> [] ->
     get_own_build_number w = (Ok v, w)).
Proof.
  unfold get_own_build_number. rewrite bind_unfold. unfold os_environ_get.
  destruct (environ w !! ("BUILD_NUMBER" : pystr)) as [[|c v]|]; cbn [raise ret].
  - split; [split; auto|]. split.
    + intros e w' [= <- <-]. now split.
    + intros v [= <-] Hv. contradiction.
  - split; [split; [discriminate|intros [|]; discriminate]|]. split.
    + discriminate.
    + intros v' [= <-] _. reflexivity.
  - split; [split; auto|]. split.
    + intros e w' [= <- <-]. now split.
    + discriminate.
Qed.

Example get_own_build_number_happy_path :
  get_own_build_number world_no_dependencies
    = (Ok ("7.3.0.1337" : pystr), world_no_dependencies).
Proof. vm_compute. reflexivity. Qed.

(** ** The persister *)

Lemma replace_no_old (old new : ascii) (s : pystr) :
  old <> new -> old ∉ replace old new s.
Proof.
  intros Hne. induction s as [|c s IH]; [apply not_elem_of_nil|].
  simpl. apply not_elem_of_cons. split; [|assumption].
  destruct (ascii_eqb c old) eqn:E; [assumption|].
  apply ascii_eqb_neq in E. congruence.
Qed.

Lemma replace_lookup (old new : ascii) (s : pystr) (i : nat) :
  replace old new s !! i = (fun c => if ascii_eqb c old then new else c) <$> (s !! i).
Proof. unfold replace. apply list_lookup_fmap. Qed.

Lemma has_char_false (c : ascii) (s : pystr) : c ∉ s -> has_char c s = false.
Proof.
  induction s as [|x s IH]; intros H; [reflexivity|].
  apply not_elem_of_cons in H as [Hx Hs]. simpl.
  rewrite (proj2 (ascii_eqb_neq c x)) by assumption. now apply IH.
Qed.

Lemma has_char_true (c : ascii) (s : pystr) : c ∈ s -> has_char c s = true.
Proof.
  induction s as [|x s IH]; intros H; [now apply elem_of_nil in H|].
  simpl. apply elem_of_cons in H as [->|H].
  - now rewrite ascii_eqb_refl.
  - rewrite IH by assumption. apply orb_true_r.
Qed.

Lemma replace_keeps_other (old new c : ascii) (s : pystr) :
  c <> old -> c <> new -> (c ∈ replace old new s <-> c ∈ s).
Proof.
  intros Hold Hnew. induction s as [|x s IH].
  - reflexivity.
  - simpl. rewrite !elem_of_cons, IH.
    destruct (ascii_eqb x old) eqn:E.
    + apply ascii_eqb_eq in E as ->. split; intros [H|H]; auto; congruence.
    + reflexivity.
Qed.

(** The file name holds the path separator exactly when the configuration
    name does. *)
Lemma file_name_separator (config_name : pystr) :
  "/"%char ∈ vcs_number_file_name config_name <-> "/"%char ∈ config_name.
Proof.
  unfold vcs_number_file_name.
  rewrite elem_of_app, elem_of_app.
  rewrite (replace_keeps_other " " "_" "/" config_name) by discriminate.
  split; [|tauto].
  intros [H|[H|H]]; [exfalso|assumption|exfalso].
  - revert H. apply (bool_decide_unpack _). vm_compute. exact I.
  - revert H. apply (bool_decide_unpack _). vm_compute. exact I.
Qed.

Lemma write_vcs_number_file_ok (n : Z) (w : world) (config_name : pystr) :
  environ w !! ("TEAMCITY_BUILDCONF_NAME" : pystr) = Some config_name ->
  "/"%char ∉ config_name ->
  write_vcs_number_file n w =
  (Ok tt, {| environ := environ w;
             cwd := store_file (vcs_number_file_name config_name) (str n) (cwd w);
             stdout := stdout w |}).
Proof.
  intros Hname Hsep. unfold write_vcs_number_file.
  erewrite bind_ok by (unfold os_environ_item; now rewrite Hname).
  unfold write_file. fold (vcs_number_file_name config_name).
  rewrite has_char_false; [reflexivity|].
  now rewrite file_name_separator.
Qed.

Lemma write_vcs_number_file_separator (n : Z) (w : world) (config_name : pystr) :
  environ w !! ("TEAMCITY_BUILDCONF_NAME" : pystr) = Some config_name ->
  "/"%char ∈ config_name ->
  write_vcs_number_file n w
    = (Raise (IOError (vcs_number_file_name config_name)), w).
Proof.
  intros Hname Hsep. unfold write_vcs_number_file.
  erewrite bind_ok by (unfold os_environ_item; now rewrite Hname).
  unfold write_file. fold (vcs_number_file_name config_name).
  rewrite has_char_true; [reflexivity|].
  now rewrite file_name_separator.
Qed.

(** C8 (as amended).  [write_vcs_number_file n] raises [KeyError] when
    [TEAMCITY_BUILDCONF_NAME] is absent from the environment.  When the
    configuration name is set and holds no path separator, it returns
    after writing the decimal text of [n] to the file of the working
    directory named [vcsnumber_], the configuration name with each space
    replaced by an underscore, [.txt]: afterwards the file holds exactly
    that text, whatever it held before, every other file is as it was, and
    the environment and the output are unchanged.  The decimal text of [n]
    is the text [int] reads back as [n]. *)
Theorem write_vcs_number_file_spec (n : Z) (w : world) :
  (environ w !! ("TEAMCITY_BUILDCONF_NAME" : pystr) = None ->
   write_vcs_number_file n w = (Raise (KeyError "TEAMCITY_BUILDCONF_NAME"), w)) /\
  (forall config_name,
     environ w !! ("TEAMCITY_BUILDCONF_NAME" : pystr) = Some config_name ->
     "/"%char ∉ config_name ->
     let sanitized := replace " " "_" config_name in
     let file := "vcsnumber_" ++ sanitized ++ ".txt" in
     exists w',
       write_vcs_number_file n w = (Ok tt, w') /\
       lookup_file file (cwd w') = Some (str n) /\
       (forall other, other <> file ->
          lookup_file other (cwd w') = lookup_file other (cwd w)) /\
       (distinct_names w -> distinct_names w') /\
       environ w' = environ w /\ stdout w' = stdout w /\
       (" "%char ∉ sanitized) /\
       (forall i, sanitized !! i =
          (fun c => if ascii_eqb c " " then "_"%char else c) <$> (config_name !! i))) /\
  int_ (str n) = Ok n /\
  replace " " "_" "RulesEngine - static" = "RulesEngine_-_static".
Proof.
  repeat split; [| |apply int_str].
  - intros Hname. unfold write_vcs_number_file. rewrite bind_unfold.
    unfold os_environ_item. now rewrite Hname.
  - intros config_name Hname Hsep. cbn zeta. eexists.
    split; [exact (write_vcs_number_file_ok n w config_name Hname Hsep)|].
    cbn [cwd environ stdout]. repeat split.
    + apply lookup_store_eq.
    + intros other Hne. now apply lookup_store_ne.
    + apply store_file_distinct.
    + now apply replace_no_old.
    + intros i. apply replace_lookup.
Qed.

Lemma write_vcs_number_file_spec_witness :
  exists w',
    write_vcs_number_file 1337 world_three_dependencies = (Ok tt, w') /\
    lookup_file "vcsnumber_RulesEngine_-_static.txt" (cwd w') = Some ("1337" : pystr).
Proof.
  destruct (write_vcs_number_file_spec 1337 world_three_dependencies)
    as (_ & H & _ & _).
  destruct (H "RulesEngine - static") as (w' & Hw & Hfile & _).
  - vm_compute. reflexivity.
  - apply (bool_decide_unpack _). vm_compute. exact I.
  - exists w'. split; [exact Hw|exact Hfile].
Defined.

(** C8 as stated fails: with the configuration name [Installer/Windows]
    the file name holds the path separator, the working directory has no
    directory [vcsnumber_Installer], and [open] raises [IOError]: the call
    does not return and writes no file. *)
Lemma write_vcs_number_file_separator_in_name :
  environ world_separator_in_name !! ("TEAMCITY_BUILDCONF_NAME" : pystr)
    = Some ("Installer/Windows" : pystr) /\
  write_vcs_number_file 1337 world_separator_in_name
    = (Raise (IOError "vcsnumber_Installer/Windows.txt"), world_separator_in_name) /\
  forall w', write_vcs_number_file 1337 world_separator_in_name <> (Ok tt, w').
Proof.
  split; [vm_compute; reflexivity|].
  assert (H : write_vcs_number_file 1337 world_separator_in_name
              = (Raise (IOError "vcsnumber_Installer/Windows.txt"),
                 world_separator_in_name)) by (vm_compute; reflexivity).
  split; [exact H|]. intros w'. rewrite H. discriminate.
Qed.

(** ** The number combiner and the entry point *)

Lemma get_own_build_number_ok (w : world) (B : pystr) :
  environ w !! ("BUILD_NUMBER" : pystr) = Some B -> B <> [] ->
  get_own_build_number w = (Ok B, w).
Proof.
  intros HB Hne. unfold get_own_build_number. rewrite bind_unfold.
  unfold os_environ_get. rewrite HB. now destruct B.
Qed.

Lemma get_final_vcs_number_eq (w : world) (B : pystr) (own largest : Z) :
  environ w !! ("BUILD_NUMBER" : pystr) = Some B -> B <> [] ->
  get_vcs_number B = Ok own ->
  get_largest_dependency_vcs_number w = (Ok largest, w) ->
  get_final_vcs_number w = (Ok (max2 own largest), w).
Proof.
  intros HB Hne Hown Hlargest. unfold get_final_vcs_number.
  rewrite bind_unfold, (get_own_build_number_ok w B) by assumption.
  rewrite bind_unfold. unfold lift at 1. rewrite Hown.
  rewrite bind_unfold, Hlargest. reflexivity.
Qed.

Lemma last_digit_run_vcs_number (B c : pystr) :
  last (split "." B) = Some c -> digit_run c = true ->
  B <> [] /\ get_vcs_number B = Ok (digits_value 0 c).
Proof.
  intros Hlast Hc. split.
  - intros ->. simpl in Hlast. injection Hlast as <-. discriminate.
  - destruct (split_structure "." B) as (cs & c' & Hs & _ & _).
    rewrite Hs, last_snoc in Hlast. injection Hlast as ->.
    rewrite (get_vcs_number_last B cs c) by assumption.
    now rewrite int_literal_digit_run.
Qed.

Lemma valid_build_number_last (B : pystr) :
  valid_build_number B = true ->
  exists c, last (split "." B) = Some c /\ digit_run c = true.
Proof.
  intros Hvalid. destruct (split_structure "." B) as (cs & c & Hs & _ & _).
  exists c. split; [now rewrite Hs, last_snoc|].
  now apply (valid_build_number_components B cs c).
Qed.

(** C1.  When [BUILD_NUMBER] holds a valid build number and every file
    matching [vcsnumber*.txt] holds an integer text, [get_final_vcs_number]
    returns the maximum of the own vcs number and of what
    [get_largest_dependency_vcs_number] returns: the own number when it is
    the greater and on a tie, the dependency number when that is the
    greater. *)
Theorem get_final_vcs_number_max (w : world) (B : pystr) :
  environ w !! ("BUILD_NUMBER" : pystr) = Some B ->
  valid_build_number B = true ->
  Forall parseable (dependency_files w) ->
  exists own largest,
    get_vcs_number B = Ok own /\
    get_largest_dependency_vcs_number w = (Ok largest, w) /\
    get_final_vcs_number w = (Ok (Z.max own largest), w) /\
    (largest < own -> get_final_vcs_number w = (Ok own, w)) /\
    (own < largest -> get_final_vcs_number w = (Ok largest, w)) /\
    (own = largest -> get_final_vcs_number w = (Ok own, w)).
Proof.
  intros HB Hvalid Hall.
  destruct (valid_build_number_last B Hvalid) as (c & Hlast & Hc).
  destruct (last_digit_run_vcs_number B c Hlast Hc) as [Hne Hown].
  destruct (largest_dependency_total w Hall) as (largest & Hlargest).
  exists (digits_value 0 c), largest.
  pose proof (get_final_vcs_number_eq w B _ _ HB Hne Hown Hlargest) as Hfinal.
  rewrite max2_max in Hfinal. rewrite Hfinal.
  repeat split; try assumption; intros H; do 2 f_equal; lia.
Qed.

Lemma get_final_vcs_number_max_witness :
  exists own largest,
    get_vcs_number "7.3.0.1337" = Ok own /\
    get_largest_dependency_vcs_number world_three_dependencies
      = (Ok largest, world_three_dependencies) /\
    get_final_vcs_number world_three_dependencies
      = (Ok (Z.max own largest), world_three_dependencies) /\
    (largest < own ->
     get_final_vcs_number world_three_dependencies = (Ok own, world_three_dependencies)) /\
    (own < largest ->
     get_final_vcs_number world_three_dependencies
       = (Ok largest, world_three_dependencies)) /\
    (own = largest ->
     get_final_vcs_number world_three_dependencies = (Ok own, world_three_dependencies)).
Proof.
  apply (get_final_vcs_number_max world_three_dependencies "7.3.0.1337").
  - vm_compute. reflexivity.
  - reflexivity.
  - repeat constructor; now eexists.
Defined.

Example final_dependencies_dominate :
  get_final_vcs_number world_three_dependencies = (Ok 3000, world_three_dependencies).
Proof. vm_compute. reflexivity. Qed.

Example final_own_dominates :
  get_final_vcs_number world_own_dominates = (Ok 9999, world_own_dominates).
Proof. vm_compute. reflexivity. Qed.

Lemma largest_dependency_readonly (w : world) :
  exists r, get_largest_dependency_vcs_number w = (r, w).
Proof.
  rewrite largest_dependency_unfold.
  destruct (dependency_files w); now eexists.
Qed.

Lemma get_final_vcs_number_unfold (w : world) :
  get_final_vcs_number w =
  match environ w !! ("BUILD_NUMBER" : pystr) with
  | None | Some [] =>
      (Raise (Exception "BUILD_NUMBER not set in environment variables"), w)
  | Some B =>
      match get_vcs_number B with
      | Raise e => (Raise e, w)
      | Ok own =>
          match fst (get_largest_dependency_vcs_number w) with
          | Ok largest => (Ok (max2 own largest), w)
          | Raise e => (Raise e, w)
          end
      end
  end.
Proof.
  unfold get_final_vcs_number, get_own_build_number.
  rewrite !bind_unfold. unfold os_environ_get.
  destruct (environ w !! ("BUILD_NUMBER" : pystr)) as [[|c B]|]; try reflexivity.
  cbn [ret]. rewrite bind_unfold. unfold lift at 1.
  destruct (get_vcs_number (c :: B)) as [own|e]; [|reflexivity].
  rewrite bind_unfold.
  destruct (largest_dependency_readonly w) as (r & ->).
  now destruct r.
Qed.

Lemma get_final_vcs_number_readonly (w : world) :
  exists r, get_final_vcs_number w = (r, w).
Proof.
  rewrite get_final_vcs_number_unfold.
  destruct (environ w !! ("BUILD_NUMBER" : pystr)) as [[|c B]|]; try now eexists.
  destruct (get_vcs_number (c :: B)); [|now eexists].
  destruct (fst (get_largest_dependency_vcs_number w)); now eexists.
Qed.

Lemma get_build_number_ok (w : world) (B : pystr) (final : Z) :
  environ w !! ("BUILD_NUMBER" : pystr) = Some B -> B <> [] ->
  get_final_vcs_number w = (Ok final, w) ->
  get_build_number w = (Ok (re_sub_digits_dollar (str final) B), w).
Proof.
  intros HB Hne Hfinal. unfold get_build_number.
  rewrite (bind_ok _ _ _ _ _ Hfinal).
  now rewrite (bind_ok _ _ _ _ _ (get_own_build_number_ok w B HB Hne)).
Qed.

(** What [main] does once the build number is computed. *)
Lemma main_after_build_number (w : world) (build_number : pystr) :
  get_build_number w = (Ok build_number, w) ->
  main w =
  let w1 := with_output w (get_teamcity_message build_number) in
  match get_vcs_number build_number with
  | Ok vcs_number => write_vcs_number_file vcs_number w1
  | Raise e => (Raise e, w1)
  end.
Proof.
  intros H. unfold main. rewrite (bind_ok _ _ _ _ _ H).
  erewrite bind_ok by reflexivity.
  rewrite bind_unfold. unfold lift. cbn zeta.
  now destruct (get_vcs_number build_number).
Qed.

(** C9.  Let the last dot-separated component of [B] be a non-empty run of
    digits and [n] be non-negative.  Then [get_vcs_number] of [B] with the
    decimal form of [n] substituted for the pattern is [n].  Hence, when
    [BUILD_NUMBER] is [B], whenever [main] returns it has written to the
    vcs number file the very number [get_final_vcs_number] returns, after
    printing the message for the new build number; and [main] does
    return when the configuration name is set and holds no path separator
    and every dependency file holds an integer text. *)
Theorem persisted_vcs_number (B c : pystr) (n : Z) :
  last (split "." B) = Some c -> digit_run c = true -> 0 <= n ->
  get_vcs_number (re_sub_digits_dollar (str n) B) = Ok n /\
  forall w : world,
    environ w !! ("BUILD_NUMBER" : pystr) = Some B ->
    (forall w', main w = (Ok tt, w') ->
       exists final config_name,
         get_final_vcs_number w = (Ok final, w) /\
         environ w !! ("TEAMCITY_BUILDCONF_NAME" : pystr) = Some config_name /\
         lookup_file (vcs_number_file_name config_name) (cwd w') = Some (str final) /\
         int_ (str final) = Ok final /\
         stdout w' =
           stdout w ++ [get_teamcity_message (re_sub_digits_dollar (str final) B)]) /\
    (forall config_name,
       environ w !! ("TEAMCITY_BUILDCONF_NAME" : pystr) = Some config_name ->
       "/"%char ∉ config_name ->
       Forall parseable (dependency_files w) ->
       exists w', main w = (Ok tt, w')).
Proof.
  intros Hlast Hc Hn. split; [now apply (get_vcs_number_after_inject B c)|].
  intros w HB.
  destruct (last_digit_run_vcs_number B c Hlast Hc) as [Hne Hown].
  assert (Hmain : forall final, get_final_vcs_number w = (Ok final, w) ->
            main w = write_vcs_number_file final
                       (with_output w (get_teamcity_message
                                         (re_sub_digits_dollar (str final) B)))).
  { intros final Hfinal.
    rewrite (main_after_build_number w _ (get_build_number_ok w B _ HB Hne Hfinal)).
    cbn zeta. now rewrite (get_vcs_number_after_inject B c). }
  split.
  - intros w' Hw'.
    destruct (get_final_vcs_number_readonly w) as ([final|e] & Hfinal).
    + rewrite (Hmain final Hfinal) in Hw'.
      set (w1 := with_output w _) in Hw'.
      destruct (environ w !! ("TEAMCITY_BUILDCONF_NAME" : pystr))
        as [config_name|] eqn:Hname.
      * destruct (decide ("/"%char ∈ config_name)) as [Hsep|Hsep].
        -- rewrite (write_vcs_number_file_separator final w1 config_name) in Hw'
             by assumption. discriminate.
        -- rewrite (write_vcs_number_file_ok final w1 config_name) in Hw'
             by assumption.
           injection Hw' as <-. exists final, config_name.
           cbn [cwd stdout w1 with_output].
           split; [exact Hfinal|]. split; [reflexivity|].
           split; [apply lookup_store_eq|]. split; [apply int_str|reflexivity].
      * unfold write_vcs_number_file in Hw'. rewrite bind_unfold in Hw'.
        unfold os_environ_item in Hw'. cbn [w1 with_output environ] in Hw'.
        unfold pystr in *. rewrite Hname in Hw'. discriminate.
    + unfold main, get_build_number in Hw'. rewrite !bind_unfold, Hfinal in Hw'.
      discriminate.
  - intros config_name Hname Hsep Hall.
    destruct (largest_dependency_total w Hall) as (largest & Hlargest).
    pose proof (get_final_vcs_number_eq w B _ _ HB Hne Hown Hlargest) as Hfinal.
    rewrite (Hmain _ Hfinal).
    rewrite (write_vcs_number_file_ok _ _ config_name) by assumption.
    now eexists.
Qed.

Lemma persisted_vcs_number_witness :
  get_vcs_number (re_sub_digits_dollar (str 3000) "7.3.0.1337") = Ok 3000 /\
  exists w',
    main world_three_dependencies = (Ok tt, w') /\
    get_final_vcs_number world_three_dependencies
      = (Ok 3000, world_three_dependencies) /\
    lookup_file "vcsnumber_RulesEngine_-_static.txt" (cwd w')
      = Some ("3000" : pystr) /\
    int_ "3000" = Ok 3000 /\
    stdout w' = [get_teamcity_message "7.3.0.3000"].
Proof.
  destruct (persisted_vcs_number "7.3.0.1337" "1337" 3000) as [H1 H2].
  - reflexivity.
  - reflexivity.
  - lia.
  - split; [exact H1|].
    destruct (H2 world_three_dependencies) as [Hpartial Htotal].
    + vm_compute. reflexivity.
    + destruct (Htotal "RulesEngine - static") as (w' & Hw').
      * vm_compute. reflexivity.
      * apply (bool_decide_unpack _). vm_compute. exact I.
      * repeat constructor; now eexists.
      * exists w'. split; [exact Hw'|].
        destruct (Hpartial w' Hw')
          as (final & config_name & Hfinal & Hname & Hfile & Hint & Hout).
        assert (E : get_final_vcs_number world_three_dependencies
                    = (Ok 3000, world_three_dependencies))
          by (vm_compute; reflexivity).
        assert (Hf : final = 3000) by congruence.
        assert (En : environ world_three_dependencies
                       !! ("TEAMCITY_BUILDCONF_NAME" : pystr)
                     = Some ("RulesEngine - static" : pystr))
          by (vm_compute; reflexivity).
        assert (Hc : config_name = ("RulesEngine - static" : pystr))
          by (unfold pystr in *; congruence).
        subst final config_name.
        split; [exact E|]. split; [exact Hfile|].
        split; [exact Hint|exact Hout].
Defined.

(** ** The three end-to-end scenarios *)

Example scenario_no_dependencies :
  main world_no_dependencies =
  (Ok tt,
   World (env_rules_engine "7.3.0.1337")
     [("vcsnumber_RulesEngine_-_static.txt" : pystr, "1337" : pystr)]
     ["##teamcity[buildNumber '7.3.0.1337']" : pystr]).
Proof. vm_compute. reflexivity. Qed.

Example scenario_dependencies_dominate :
  let '(r, w') := main world_three_dependencies in
  r = Ok tt /\
  stdout w' = ["##teamcity[buildNumber '7.3.0.3000']" : pystr] /\
  lookup_file "vcsnumber_RulesEngine_-_static.txt" (cwd w') = Some ("3000" : pystr).
Proof. vm_compute. repeat split. Qed.

Example scenario_own_dominates :
  let '(r, w') := main world_own_dominates in
  r = Ok tt /\
  stdout w' = ["##teamcity[buildNumber '7.3.0.9999']" : pystr] /\
  lookup_file "vcsnumber_RulesEngine_-_static.txt" (cwd w') = Some ("9999" : pystr).
Proof. vm_compute. repeat split. Qed.

(** * Further properties of the script *)

(** ** The resolver on arbitrary build numbers *)

(** X1.  [get_vcs_number] looks at the text after the last dot only: with
    any text [p] before that dot, it returns [n] exactly when [int]
    returns [n] for the last component, and whenever it raises, it raises
    its own exception about the whole build number, never the exception
    of [int]. *)
Theorem get_vcs_number_ignores_branch (p c : pystr) :
  "."%char ∉ c ->
  (forall n, get_vcs_number (p ++ "."%char :: c) = Ok n <-> int_ c = Ok n) /\
  (forall e, get_vcs_number (p ++ "."%char :: c) = Raise e ->
     e = Exception (vcs_number_error (p ++ "."%char :: c))).
Proof.
  intros Hc.
  rewrite (get_vcs_number_last _ (split "." p) c) by now apply split_app_sep.
  split.
  - intros n. rewrite int_Ok_iff.
    destruct (int_literal c) as [m|]; split; congruence.
  - destruct (int_literal c) as [m|]; [discriminate|congruence].
Qed.

Lemma get_vcs_number_ignores_branch_witness :
  (forall n, get_vcs_number ("release.x" ++ "."%char :: "12") = Ok n
             <-> int_ "12" = Ok n) /\
  (forall e, get_vcs_number ("release.x" ++ "."%char :: "12") = Raise e ->
     e = Exception (vcs_number_error ("release.x" ++ "."%char :: "12"))).
Proof.
  apply (get_vcs_number_ignores_branch "release.x" "12").
  apply digits_no_dot. reflexivity.
Defined.

(** X2.  Every build number that holds a dot is its branch number, a dot,
    and its last component, which holds no dot; for a build number without
    a dot the branch number is empty and the last component is the whole
    text. *)
Theorem build_number_decomposition (B : pystr) :
  ("."%char ∈ B ->
   exists c, last (split "." B) = Some c /\ ("."%char ∉ c) /\
     B = get_branch_number B ++ "."%char :: c) /\
  ("."%char ∉ B ->
   get_branch_number B = [] /\ last (split "." B) = Some B).
Proof.
  split.
  - intros Hin. destruct (last_sep_decomp "." B) as [Hno|(q & c & -> & Hc)];
      [contradiction|].
    exists c. rewrite split_app_sep by assumption.
    rewrite last_snoc. repeat split; [assumption|].
    rewrite (get_branch_number_init _ (split "." q) c) by now apply split_app_sep.
    change (join "." (split "." q)) with (join ["."%char] (split "." q)).
    now rewrite join_split.
  - intros Hno. rewrite (get_branch_number_init B [] B) by now apply split_no_sep.
    rewrite split_no_sep by assumption. now split.
Qed.

Lemma build_number_decomposition_witness :
  exists c, last (split "." ("7.3.0.1337" : pystr)) = Some c /\ ("."%char ∉ c) /\
    ("7.3.0.1337" : pystr) = get_branch_number "7.3.0.1337" ++ "."%char :: c.
Proof.
  destruct (build_number_decomposition "7.3.0.1337") as [H _].
  apply H. apply (bool_decide_unpack _). vm_compute. exact I.
Defined.

(** X3.  The TeamCity message determines the build number: two build
    numbers have the same message only when they are the same. *)
Theorem get_teamcity_message_inj (a b : pystr) :
  get_teamcity_message a = get_teamcity_message b <-> a = b.
Proof.
  split; [|now intros ->].
  unfold get_teamcity_message. intros H.
  apply app_inv_head in H. now apply app_inv_tail in H.
Qed.

Lemma split_replace_last (B : pystr) (cs : list pystr) (c c' : pystr) :
  split "." B = cs ++ [c] -> "."%char ∉ c' ->
  split "." (before_last "." cs ++ c') = cs ++ [c'].
Proof.
  intros Hs Hc'. destruct (last_sep_decomp "." B) as [Hno|(q & c0 & -> & Hc0)].
  - rewrite split_no_sep in Hs by assumption.
    destruct cs as [|x cs]; [now apply split_no_sep|].
    destruct cs; discriminate.
  - rewrite split_app_sep in Hs by assumption.
    apply app_inj_tail in Hs as [<- _].
    pose proof (split_nonempty "." q) as Hq. unfold before_last.
    destruct (split "." q) as [|x xs] eqn:E; [contradiction|].
    rewrite <- E, join_split, <- app_assoc. now apply split_app_sep.
Qed.

(** X4.  Substituting a number for the digit run that ends a build number
    leaves the branch number as it was. *)
Theorem inject_keeps_branch_number (B c : pystr) (n : Z) :
  last (split "." B) = Some c -> digit_run c = true ->
  get_branch_number (re_sub_digits_dollar (str n) B) = get_branch_number B.
Proof.
  intros Hlast Hc.
  destruct (split_structure "." B) as (cs & c' & Hs & _ & _).
  rewrite Hs, last_snoc in Hlast. injection Hlast as ->.
  unfold re_sub_digits_dollar. rewrite (inject_last_component B cs c) by assumption.
  cbn [fst].
  rewrite (get_branch_number_init _ cs (str n))
    by (apply (split_replace_last B cs c); [assumption|apply str_no_dot]).
  symmetry. now apply (get_branch_number_init B cs c).
Qed.

Lemma inject_keeps_branch_number_witness :
  get_branch_number (re_sub_digits_dollar (str 3000) "7.3.0.1337")
    = get_branch_number "7.3.0.1337".
Proof.
  apply (inject_keeps_branch_number "7.3.0.1337" "1337" 3000); reflexivity.
Defined.

(** ** The substitution where the build number does not end in digits *)

Lemma match_none_before_other (t : pystr) (x : ascii) :
  is_digit x = false -> x <> newline ->
  match_digits_dollar (t ++ [x]) = None.
Proof.
  intros Hx Hnl. induction t as [|c t IH]; simpl.
  - now rewrite Hx.
  - rewrite IH. destruct (is_digit c); [|reflexivity].
    destruct t as [|c' t]; simpl.
    + now rewrite (proj2 (ascii_eqb_neq x newline)).
    + now destruct (t ++ [x]) eqn:E; [apply app_eq_nil in E as [_ E]|].
Qed.

Lemma subn_scan_no_match (repl t : pystr) (x : ascii) :
  is_digit x = false -> x <> newline ->
  subn_scan repl 0 (t ++ [x]) = (t ++ [x], 0%nat).
Proof.
  intros Hx Hnl. induction t as [|c t IH].
  - simpl. now rewrite Hx.
  - change (subn_scan repl 0 ((c :: t) ++ [x])) with
      (match match_digits_dollar ((c :: t) ++ [x]) with
       | Some (S k) =>
           let '(out, n) := subn_scan repl k (t ++ [x]) in (repl ++ out, S n)
       | _ => let '(out, n) := subn_scan repl 0 (t ++ [x]) in (c :: out, n)
       end).
    now rewrite match_none_before_other, IH.
Qed.

(** X5.  A string that is empty, or whose last character is neither a digit
    nor a newline, has no match of the pattern: the substitution returns
    it unchanged and counts no substitution. *)
Theorem inject_without_trailing_digits (repl s : pystr) :
  (s = [] \/ exists t x, s = t ++ [x] /\ is_digit x = false /\ x <> newline) ->
  re_subn_digits_dollar repl s = (s, 0%nat).
Proof.
  intros [->|(t & x & -> & Hx & Hnl)]; [reflexivity|].
  now apply subn_scan_no_match.
Qed.

Lemma inject_without_trailing_digits_witness :
  re_subn_digits_dollar "3000" ("7.3.0.42" ++ [" "%char])
    = ("7.3.0.42" ++ [" "%char], 0%nat).
Proof.
  apply (inject_without_trailing_digits "3000" ("7.3.0.42" ++ [" "%char])).
  right. exists ("7.3.0.42" : pystr), " "%char.
  split; [reflexivity|]. split; [reflexivity|discriminate].
Defined.

Lemma subn_scan_skip (repl a b : pystr) :
  subn_scan repl (length a) (a ++ b) = subn_scan repl 0 b.
Proof.
  induction a as [|c a IH]; [|exact IH].
  simpl. now destruct b.
Qed.

Lemma match_digit_run_newline (d : pystr) :
  digit_run d = true -> match_digits_dollar (d ++ [newline]) = Some (length d).
Proof.
  induction d as [|c d IH]; [discriminate|].
  intros H. simpl in H. apply andb_true_iff in H as [Hc Hd].
  simpl. rewrite Hc. destruct d as [|c' d].
  - reflexivity.
  - now rewrite IH.
Qed.

Lemma at_dollar_long (s : pystr) : (2 <= length s)%nat -> at_dollar s = false.
Proof. destruct s as [|a [|b s]]; simpl; [lia|lia|reflexivity]. Qed.

Lemma match_before_non_digit_newline (u d : pystr) (x : ascii) :
  is_digit x = false -> digit_run d = true ->
  match_digits_dollar (u ++ x :: d ++ [newline]) = None.
Proof.
  intros Hx Hd. induction u as [|c u IH]; simpl.
  - now rewrite Hx.
  - rewrite IH. destruct (is_digit c); [|reflexivity].
    rewrite at_dollar_long; [reflexivity|].
    rewrite length_app. cbn [length]. rewrite length_app. cbn [length]. lia.
Qed.

(** X6.  When the string ends in a run of digits followed by one newline,
    the pattern still matches that run ([$] matches before a final
    newline): the run is replaced, once, and the newline stays. *)
Theorem inject_before_final_newline (repl pre d : pystr) :
  digit_run d = true ->
  (pre = [] \/ exists u x, pre = u ++ [x] /\ is_digit x = false) ->
  re_subn_digits_dollar repl (pre ++ d ++ [newline])
    = (pre ++ repl ++ [newline], 1%nat).
Proof.
  intros Hd Hpre. unfold re_subn_digits_dollar. induction pre as [|c pre IH].
  - simpl. destruct d as [|c d]; [discriminate|].
    change (subn_scan repl 0 ((c :: d) ++ [newline])) with
      (match match_digits_dollar ((c :: d) ++ [newline]) with
       | Some (S k) =>
           let '(out, n) := subn_scan repl k (d ++ [newline]) in (repl ++ out, S n)
       | _ => let '(out, n) := subn_scan repl 0 (d ++ [newline]) in (c :: out, n)
       end).
    rewrite match_digit_run_newline by assumption. cbn [length].
    now rewrite subn_scan_skip.
  - destruct Hpre as [Hpre|(u & x & Hpre & Hx)]; [discriminate|].
    assert (Hnone : match_digits_dollar ((c :: pre) ++ d ++ [newline]) = None).
    { rewrite Hpre, <- app_assoc. now apply match_before_non_digit_newline. }
    change (subn_scan repl 0 ((c :: pre) ++ d ++ [newline])) with
      (match match_digits_dollar ((c :: pre) ++ d ++ [newline]) with
       | Some (S k) =>
           let '(out, n) := subn_scan repl k (pre ++ d ++ [newline]) in
           (repl ++ out, S n)
       | _ =>
           let '(out, n) := subn_scan repl 0 (pre ++ d ++ [newline]) in
           (c :: out, n)
       end).
    rewrite Hnone, IH; [reflexivity|].
    destruct u as [|c' u].
    + left. now injection Hpre.
    + right. exists u, x. split; [now injection Hpre|assumption].
Qed.

Lemma inject_before_final_newline_witness :
  re_subn_digits_dollar "3000" ("7.3.0." ++ "1337" ++ [newline])
    = ("7.3.0." ++ "3000" ++ [newline], 1%nat).
Proof.
  apply (inject_before_final_newline "3000" "7.3.0." "1337").
  - reflexivity.
  - right. exists ("7.3.0" : pystr), "."%char. split; reflexivity.
Defined.

(** ** A sign before the digits that end the build number *)

Lemma int_literal_minus (m : pystr) :
  digit_run m = true -> int_literal ("-"%char :: m) = Some (- digits_value 0 m).
Proof.
  intros Hm. unfold int_literal.
  destruct (strip_core [] [] m "-" eq_refl eq_refl eq_refl Hm) as [H _].
  simpl in H. rewrite app_nil_r in H. rewrite H. simpl.
  unfold parse_digits. now rewrite Hm.
Qed.

(** X7.  When the last component of the build number is a minus sign
    followed by a run of digits, [get_vcs_number] returns a negative
    number, and the substitution replaces the digits but keeps the sign:
    the number extracted after substituting a non-negative [n] is [- n],
    not [n]. *)
Theorem inject_after_minus_sign (q d : pystr) (n : Z) :
  digit_run d = true -> 0 <= n ->
  (q = [] \/ exists q', q = q' ++ ["."%char]) ->
  get_vcs_number (q ++ "-"%char :: d) = Ok (- digits_value 0 d) /\
  re_sub_digits_dollar (str n) (q ++ "-"%char :: d) = q ++ "-"%char :: str n /\
  get_vcs_number (re_sub_digits_dollar (str n) (q ++ "-"%char :: d)) = Ok (- n).
Proof.
  intros Hd Hn Hq.
  assert (Hlast : forall m, digit_run m = true ->
            get_vcs_number (q ++ "-"%char :: m) = Ok (- digits_value 0 m)).
  { intros m Hm.
    assert (Hno : "."%char ∉ "-"%char :: m).
    { apply not_elem_of_cons. split; [discriminate|].
      now apply digits_no_dot, digit_run_all_digits. }
    destruct Hq as [->|(q' & ->)].
    - rewrite (get_vcs_number_last _ [] ("-"%char :: m)) by now apply split_no_sep.
      now rewrite int_literal_minus.
    - rewrite <- app_assoc.
      rewrite (get_vcs_number_last _ (split "." q') ("-"%char :: m))
        by now apply split_app_sep.
      now rewrite int_literal_minus. }
  assert (Hsub : re_sub_digits_dollar (str n) (q ++ "-"%char :: d)
                 = q ++ "-"%char :: str n).
  { unfold re_sub_digits_dollar, re_subn_digits_dollar.
    change (q ++ "-"%char :: d) with (q ++ ["-"%char] ++ d).
    rewrite app_assoc, subn_scan_trailing_run; [|right; now exists q, "-"%char|assumption].
    now rewrite <- app_assoc. }
  split; [now apply Hlast|]. split; [exact Hsub|].
  rewrite Hsub, Hlast by now apply str_digit_run.
  rewrite str_nonneg, str_nat_value by assumption. reflexivity.
Qed.

Lemma inject_after_minus_sign_witness :
  get_vcs_number ("7.3.0." ++ "-"%char :: "5") = Ok (- digits_value 0 "5") /\
  re_sub_digits_dollar (str 7) ("7.3.0." ++ "-"%char :: "5")
    = "7.3.0." ++ "-"%char :: str 7 /\
  get_vcs_number (re_sub_digits_dollar (str 7) ("7.3.0." ++ "-"%char :: "5"))
    = Ok (- 7).
Proof.
  apply (inject_after_minus_sign "7.3.0." "5" 7).
  - reflexivity.
  - lia.
  - right. now exists ("7.3.0" : pystr).
Defined.

(** ** Failures of the aggregator and of the combiner *)

Lemma int_all_raise_inv (l : list pystr) (e : exn) :
  int_all l = Raise e ->
  exists d, d ∈ l /\ int_literal d = None /\ int_ d = Raise e.
Proof.
  induction l as [|d l IH]; [discriminate|].
  simpl. destruct (int_ d) as [n|e'] eqn:E.
  - destruct (int_all l) as [ns|e''] eqn:El; [discriminate|].
    intros [= <-]. destruct (IH eq_refl) as (d' & Hin & Hd' & He).
    exists d'. repeat split; [|assumption|assumption]. apply elem_of_cons. now right.
  - intros [= <-]. exists d. repeat split.
    + apply elem_of_cons. now left.
    + now apply int_raise_inv in E.
    + assumption.
Qed.

Lemma int_all_length (l : list pystr) (ns : list Z) :
  int_all l = Ok ns -> length ns = length l.
Proof.
  revert ns. induction l as [|d l IH]; intros ns; simpl.
  - now intros [= <-].
  - destruct (int_ d); [|discriminate].
    destruct (int_all l) as [ns'|]; [|discriminate].
    intros [= <-]. simpl. f_equal. now apply IH.
Qed.

(** X8.  A [ValueError] of [get_largest_dependency_vcs_number] always comes
    from a dependency file: it is the exception [int] raises for the
    contents of a file that matches [vcsnumber*.txt] and holds no integer
    text, never the one [max] raises for an empty list, and the world is
    left as it was. *)
Theorem largest_dependency_failure (w w1 : world) (msg : pystr) :
  get_largest_dependency_vcs_number w = (Raise (ValueError msg), w1) ->
  w1 = w /\
  exists name data,
    (name, data) ∈ dependency_files w /\ int_literal data = None /\
    int_ data = Raise (ValueError msg).
Proof.
  rewrite largest_dependency_unfold.
  destruct (dependency_files w) as [|f fs] eqn:E; [discriminate|].
  rewrite <- E.
  destruct (int_all (read_all w (map fst (dependency_files w)))) as [ns|e'] eqn:Ei.
  - apply int_all_length in Ei. unfold read_all in Ei.
    rewrite E in Ei. simpl in Ei.
    destruct ns as [|x ns]; [discriminate|]. discriminate.
  - intros [= -> <-]. split; [reflexivity|].
    apply int_all_raise_inv in Ei as (d & Hin & Hd & He).
    apply read_all_dependency in Hin as (name & Hin).
    now exists name, d.
Qed.

Lemma largest_dependency_failure_witness :
  world_two_lines = world_two_lines /\
  exists name data,
    (name, data) ∈ dependency_files world_two_lines /\ int_literal data = None /\
    int_ data
      = Raise (ValueError "invalid literal for int() with base 10: '1000\n2000'").
Proof.
  apply (largest_dependency_failure world_two_lines world_two_lines
           "invalid literal for int() with base 10: '1000\n2000'").
  vm_compute. reflexivity.
Defined.

(** X9.  [get_final_vcs_number] looks at the own build number first.  When
    [BUILD_NUMBER] is absent or empty it raises the "not set" exception,
    and when the last component of [BUILD_NUMBER] is no integer text it
    raises the exception of [get_vcs_number], in both cases whatever the
    dependency files hold; a failure of the dependency files shows only
    when the own build number is accepted.  The world is left as it
    was. *)
Theorem get_final_vcs_number_errors (w : world) :
  (environ w !! ("BUILD_NUMBER" : pystr) = None \/
   environ w !! ("BUILD_NUMBER" : pystr) = Some [] ->
   get_final_vcs_number w
     = (Raise (Exception "BUILD_NUMBER not set in environment variables"), w)) /\
  (forall B c,
     environ w !! ("BUILD_NUMBER" : pystr) = Some B -> B <> [] ->
     last (split "." B) = Some c -> int_literal c = None ->
     get_final_vcs_number w = (Raise (Exception (vcs_number_error B)), w)) /\
  (forall B own e w1,
     environ w !! ("BUILD_NUMBER" : pystr) = Some B -> B <> [] ->
     get_vcs_number B = Ok own ->
     get_largest_dependency_vcs_number w = (Raise e, w1) ->
     get_final_vcs_number w = (Raise e, w)).
Proof.
  rewrite get_final_vcs_number_unfold. unfold pystr in *. repeat split.
  - intros [-> | ->]; reflexivity.
  - intros B c -> Hne Hlast Hc. destruct B as [|b B]; [contradiction|].
    destruct (split_structure "." (b :: B)) as (cs & c' & Hs & _ & _).
    rewrite Hs, last_snoc in Hlast. injection Hlast as ->.
    rewrite (get_vcs_number_last _ cs c) by assumption. now rewrite Hc.
  - intros B own e w1 -> Hne Hown Hlargest. destruct B as [|b B]; [contradiction|].
    now rewrite Hown, Hlargest.
Qed.

Lemma get_final_vcs_number_errors_witness :
  get_final_vcs_number world_unset
    = (Raise (Exception "BUILD_NUMBER not set in environment variables"),
       world_unset).
Proof.
  destruct (get_final_vcs_number_errors world_unset) as [H _].
  apply H. left. vm_compute. reflexivity.
Defined.

(** ** Failures of the entry point *)

(** X10.  When [get_final_vcs_number] raises (no or a malformed
    [BUILD_NUMBER], a dependency file that holds no integer text), [main]
    raises the same exception and has done nothing before: no line is
    printed and no file is written. *)
Theorem main_fails_without_output (w w1 : world) (e : exn) :
  get_final_vcs_number w = (Raise e, w1) -> main w = (Raise e, w).
Proof.
  intros H. destruct (get_final_vcs_number_readonly w) as (r & Hr).
  rewrite Hr in H. injection H as -> <-.
  unfold main, get_build_number. rewrite !bind_unfold. now rewrite Hr.
Qed.

Lemma main_fails_without_output_witness :
  main world_unset
    = (Raise (Exception "BUILD_NUMBER not set in environment variables"),
       world_unset).
Proof.
  apply (main_fails_without_output world_unset world_unset).
  vm_compute. reflexivity.
Defined.

(** X11.  When everything is in order except that
    [TEAMCITY_BUILDCONF_NAME] is absent, [main] has already printed the
    message for the new build number when it raises [KeyError]: the
    output holds the line, and no file is written. *)
Theorem main_without_configuration_name (w : world) (B c : pystr) :
  environ w !! ("BUILD_NUMBER" : pystr) = Some B ->
  last (split "." B) = Some c -> digit_run c = true ->
  Forall parseable (dependency_files w) ->
  environ w !! ("TEAMCITY_BUILDCONF_NAME" : pystr) = None ->
  exists final,
    get_final_vcs_number w = (Ok final, w) /\
    main w =
      (Raise (KeyError "TEAMCITY_BUILDCONF_NAME"),
       with_output w
         (get_teamcity_message (re_sub_digits_dollar (str final) B))).
Proof.
  intros HB Hlast Hc Hall Hname.
  destruct (last_digit_run_vcs_number B c Hlast Hc) as [Hne Hown].
  destruct (largest_dependency_total w Hall) as (largest & Hlargest).
  pose proof (get_final_vcs_number_eq w B _ _ HB Hne Hown Hlargest) as Hfinal.
  eexists. split; [exact Hfinal|].
  rewrite (main_after_build_number w _ (get_build_number_ok w B _ HB Hne Hfinal)).
  cbn zeta. rewrite (get_vcs_number_after_inject B c) by assumption.
  unfold write_vcs_number_file. rewrite bind_unfold. unfold os_environ_item.
  cbn [with_output environ]. now rewrite Hname.
Qed.

Lemma main_without_configuration_name_witness :
  exists final,
    get_final_vcs_number world_no_name = (Ok final, world_no_name) /\
    main world_no_name =
      (Raise (KeyError "TEAMCITY_BUILDCONF_NAME"),
       with_output world_no_name
         (get_teamcity_message (re_sub_digits_dollar (str final) "7.3.0.1337"))).
Proof.
  apply (main_without_configuration_name world_no_name "7.3.0.1337" "1337").
  - vm_compute. reflexivity.
  - reflexivity.
  - reflexivity.
  - repeat constructor; now eexists.
  - vm_compute. reflexivity.
Defined.

(** X12.  When [BUILD_NUMBER] is accepted by [get_vcs_number] but ends in a
    character that is neither a digit nor a newline (a trailing space,
    say), the pattern does not match: [main] prints the own build number
    unchanged and, the configuration name holding no path separator,
    writes the own vcs number to the file, whatever
    [get_final_vcs_number] returns. *)
Theorem main_keeps_unmatched_build_number
    (w : world) (B t config_name : pystr) (x : ascii) (own : Z) :
  environ w !! ("BUILD_NUMBER" : pystr) = Some B ->
  B = t ++ [x] -> is_digit x = false -> x <> newline ->
  get_vcs_number B = Ok own ->
  Forall parseable (dependency_files w) ->
  environ w !! ("TEAMCITY_BUILDCONF_NAME" : pystr) = Some config_name ->
  "/"%char ∉ config_name ->
  exists final w',
    get_final_vcs_number w = (Ok final, w) /\ own <= final /\
    main w = (Ok tt, w') /\
    stdout w' = stdout w ++ [get_teamcity_message B] /\
    lookup_file (vcs_number_file_name config_name) (cwd w') = Some (str own).
Proof.
  intros HB HBx Hx Hnl Hown Hall Hname Hsep.
  assert (Hne : B <> []) by (rewrite HBx; now destruct t).
  destruct (largest_dependency_total w Hall) as (largest & Hlargest).
  pose proof (get_final_vcs_number_eq w B _ _ HB Hne Hown Hlargest) as Hfinal.
  assert (Hsub : re_sub_digits_dollar (str (max2 own largest)) B = B).
  { unfold re_sub_digits_dollar, re_subn_digits_dollar. rewrite HBx.
    now rewrite subn_scan_no_match. }
  pose proof (get_build_number_ok w B _ HB Hne Hfinal) as Hbuild.
  rewrite Hsub in Hbuild.
  exists (max2 own largest). eexists.
  split; [exact Hfinal|]. split; [rewrite max2_max; lia|].
  rewrite (main_after_build_number w B Hbuild). cbn zeta. rewrite Hown.
  rewrite (write_vcs_number_file_ok own _ config_name) by assumption.
  split; [reflexivity|]. cbn [with_output cwd stdout].
  split; [reflexivity|apply lookup_store_eq].
Qed.

Lemma main_keeps_unmatched_build_number_witness :
  exists final w',
    get_final_vcs_number world_trailing_space = (Ok final, world_trailing_space) /\
    42 <= final /\
    main world_trailing_space = (Ok tt, w') /\
    stdout w' = stdout world_trailing_space
                ++ [get_teamcity_message ("7.3.0.42" ++ [" "%char])] /\
    lookup_file (vcs_number_file_name "RulesEngine - static") (cwd w')
      = Some (str 42).
Proof.
  apply (main_keeps_unmatched_build_number world_trailing_space
           ("7.3.0.42" ++ [" "%char]) "7.3.0.42" "RulesEngine - static" " " 42).
  - vm_compute. reflexivity.
  - reflexivity.
  - reflexivity.
  - discriminate.
  - reflexivity.
  - repeat constructor; now eexists.
  - vm_compute. reflexivity.
  - apply (bool_decide_unpack _). vm_compute. exact I.
Defined.

Example stale_build_number :
  fst (get_final_vcs_number world_trailing_space) = Ok 3000.
Proof. vm_compute. reflexivity. Qed.

(** ** The file written and the files read *)

Lemma matches_written_name (config_name : pystr) :
  matches_vcsnumber_txt (vcs_number_file_name config_name) = true.
Proof.
  unfold matches_vcsnumber_txt, vcs_number_file_name.
  set (mid := replace " " "_" config_name).
  assert (H1 : starts_with "vcsnumber" ("vcsnumber_" ++ mid ++ ".txt")
               = Some ("_"%char :: mid ++ ".txt")) by now apply starts_with_spec.
  rewrite H1. unfold ends_with.
  assert (H2 : starts_with (rev ".txt") (rev ("_"%char :: mid ++ ".txt"))
               = Some (rev ("_"%char :: mid))).
  { apply starts_with_spec.
    change ("_"%char :: mid ++ ".txt") with (("_"%char :: mid) ++ ".txt").
    now rewrite rev_app_distr. }
  now rewrite H2.
Qed.

(** X13.  For a configuration name without path separator, what
    [write_vcs_number_file] writes is a dependency file for the next run:
    the name of the file matches [vcsnumber*.txt], and
    [get_vcs_number_from_file] reads from it the very number written,
    negative numbers included. *)
Theorem write_then_read (n : Z) (w : world) (config_name : pystr) :
  environ w !! ("TEAMCITY_BUILDCONF_NAME" : pystr) = Some config_name ->
  "/"%char ∉ config_name ->
  exists w',
    write_vcs_number_file n w = (Ok tt, w') /\
    matches_vcsnumber_txt (vcs_number_file_name config_name) = true /\
    get_vcs_number_from_file (vcs_number_file_name config_name) w' = (Ok n, w').
Proof.
  intros Hname Hsep. eexists.
  split; [exact (write_vcs_number_file_ok n w config_name Hname Hsep)|].
  split; [apply matches_written_name|].
  rewrite get_vcs_number_from_file_eq. cbn [cwd].
  now rewrite lookup_store_eq, int_str.
Qed.

Lemma write_then_read_witness :
  exists w',
    write_vcs_number_file (-5) world_no_dependencies = (Ok tt, w') /\
    matches_vcsnumber_txt (vcs_number_file_name "RulesEngine - static") = true /\
    get_vcs_number_from_file (vcs_number_file_name "RulesEngine - static") w'
      = (Ok (-5), w').
Proof.
  apply (write_then_read (-5) world_no_dependencies "RulesEngine - static").
  - vm_compute. reflexivity.
  - apply (bool_decide_unpack _). vm_compute. exact I.
Defined.

Lemma store_file_elem (name data : pystr) (files : list (pystr * pystr))
    (e : pystr * pystr) :
  e ∈ store_file name data files -> e = (name, data) \/ e ∈ files.
Proof.
  induction files as [|[n d] files IH]; cbn [store_file].
  - intros H. apply list_elem_of_singleton in H. now left.
  - destruct (decide (n = name)) as [->|Hne]; intros H.
    + apply elem_of_cons in H as [H|H]; [now left|].
      right. apply elem_of_cons. now right.
    + apply elem_of_cons in H as [H|H].
      * right. apply elem_of_cons. now left.
      * destruct (IH H) as [H'|H']; [now left|].
        right. apply elem_of_cons. now right.
Qed.

(** X14.  After [write_vcs_number_file n] for a configuration name
    without path separator, in a working directory that lists each name
    once and whose dependency files all hold integer texts,
    [get_largest_dependency_vcs_number] returns a number that is at least
    [n]: either [n] itself or the number of a dependency file that was
    there before. *)
Theorem write_then_aggregate (n : Z) (w : world) (config_name : pystr) :
  environ w !! ("TEAMCITY_BUILDCONF_NAME" : pystr) = Some config_name ->
  "/"%char ∉ config_name ->
  distinct_names w ->
  Forall parseable (dependency_files w) ->
  exists w' m,
    write_vcs_number_file n w = (Ok tt, w') /\
    get_largest_dependency_vcs_number w' = (Ok m, w') /\
    n <= m /\ (m = n \/ m ∈ dependency_numbers w).
Proof.
  intros Hname Hsep Hnd Hall.
  set (file := vcs_number_file_name config_name).
  set (w' := {| environ := environ w; cwd := store_file file (str n) (cwd w);
                stdout := stdout w |}).
  assert (Hin : (file, str n) ∈ dependency_files w').
  { apply list_elem_of_filter. split; [apply matches_written_name|].
    apply lookup_file_elem. cbn [w' cwd]. apply lookup_store_eq. }
  assert (Hsplit : forall e, e ∈ dependency_files w' ->
            e = (file, str n) \/ e ∈ dependency_files w).
  { intros e He. apply list_elem_of_filter in He as [Hm He].
    apply store_file_elem in He as [He|He]; [now left|].
    right. now apply list_elem_of_filter. }
  destruct (largest_dependency_greatest w') as (m & Hm & Hmin & Hmax).
  - unfold distinct_names. cbn [w' cwd]. now apply store_file_distinct.
  - intros Hnil. rewrite Hnil in Hin. now apply elem_of_nil in Hin.
  - apply Forall_forall. intros e He. destruct (Hsplit e He) as [->|He'].
    + unfold parseable. cbn [snd]. rewrite int_literal_str. now eexists.
    + rewrite Forall_forall in Hall. now apply Hall.
  - exists w', m. split; [now apply write_vcs_number_file_ok|].
    split; [exact Hm|]. split.
    + apply Hmax. unfold dependency_numbers.
      change (n ∈ (fun e => int_value (snd e)) <$> dependency_files w').
      apply list_elem_of_fmap. exists (file, str n). split; [|assumption].
      cbn [snd]. unfold int_value. now rewrite int_literal_str.
    + unfold dependency_numbers in Hmin.
      change (m ∈ (fun e => int_value (snd e)) <$> dependency_files w') in Hmin.
      apply list_elem_of_fmap in Hmin as (e & -> & He).
      destruct (Hsplit e He) as [->|He'].
      * left. cbn [snd]. unfold int_value. now rewrite int_literal_str.
      * right. unfold dependency_numbers.
        change (int_value e.2 ∈ (fun e => int_value (snd e)) <$> dependency_files w).
        apply list_elem_of_fmap. now exists e.
Qed.

Lemma write_then_aggregate_witness :
  exists w' m,
    write_vcs_number_file 1337 world_three_dependencies = (Ok tt, w') /\
    get_largest_dependency_vcs_number w' = (Ok m, w') /\
    1337 <= m /\ (m = 1337 \/ m ∈ dependency_numbers world_three_dependencies).
Proof.
  apply (write_then_aggregate 1337 world_three_dependencies "RulesEngine - static").
  - vm_compute. reflexivity.
  - apply (bool_decide_unpack _). vm_compute. exact I.
  - distinct_by_computation.
  - repeat constructor; now eexists.
Defined.

Lemma lookup_file_skip (name other data : pystr) (l1 l2 : list (pystr * pystr)) :
  other <> name ->
  lookup_file other (l1 ++ (name, data) :: l2) = lookup_file other (l1 ++ l2).
Proof.
  intros Hne. induction l1 as [|[n d] l1 IH]; cbn [app lookup_file].
  - now rewrite decide_False by congruence.
  - now rewrite IH.
Qed.

(** X15.  A file whose name does not match [vcsnumber*.txt] takes no part:
    wherever the directory lists it and whatever it holds, the result of
    [get_largest_dependency_vcs_number], value or exception, is the same
    with and without it. *)
Theorem unmatched_file_ignored
    (w w' : world) (name data : pystr) (l1 l2 : list (pystr * pystr)) :
  matches_vcsnumber_txt name = false ->
  cwd w = l1 ++ l2 ->
  cwd w' = l1 ++ (name, data) :: l2 ->
  fst (get_largest_dependency_vcs_number w')
    = fst (get_largest_dependency_vcs_number w).
Proof.
  intros Hname Hw Hw'.
  assert (Hdeps : dependency_files w' = dependency_files w).
  { unfold dependency_files. rewrite Hw, Hw', !filter_app.
    rewrite filter_cons_False; [reflexivity|]. cbn [fst]. congruence. }
  assert (Hread : read_all w' (map fst (dependency_files w))
                  = read_all w (map fst (dependency_files w))).
  { unfold read_all. apply map_ext_in. intros n Hn.
    apply list_elem_of_In in Hn.
    change (n ∈ fst <$> dependency_files w) in Hn.
    apply list_elem_of_fmap in Hn as (e & -> & He).
    apply list_elem_of_filter in He as [Hm _].
    rewrite Hw, Hw', lookup_file_skip; [reflexivity|]. congruence. }
  rewrite !largest_dependency_unfold, Hdeps, Hread.
  now destruct (dependency_files w).
Qed.

Lemma unmatched_file_ignored_witness :
  fst (get_largest_dependency_vcs_number world_three_dependencies)
  = fst (get_largest_dependency_vcs_number
           (World (env_rules_engine "7.3.0.1337")
              [("vcsnumber_dep1.txt" : pystr, "1000" : pystr);
               ("vcsnumber_dep2.txt" : pystr, "3000" : pystr);
               ("vcsnumber_dep3.txt" : pystr, "2000" : pystr)] [])).
Proof.
  apply (unmatched_file_ignored _ world_three_dependencies "readme.txt" "notes"
           [("vcsnumber_dep1.txt" : pystr, "1000" : pystr)]
           [("vcsnumber_dep2.txt" : pystr, "3000" : pystr);
            ("vcsnumber_dep3.txt" : pystr, "2000" : pystr)]);
    reflexivity.
Defined.

Lemma int_literal_padded (ws1 ws2 : pystr) (n : Z) :
  all_spaces ws1 = true -> all_spaces ws2 = true ->
  int_literal (ws1 ++ str n ++ ws2) = Some n.
Proof.
  intros H1 H2. rewrite <- (int_literal_str n). unfold int_literal.
  assert (Hstrip : strip (ws1 ++ str n ++ ws2) = strip (str n)).
  { destruct (Z.ltb_spec n 0) as [Hneg|Hpos].
    - unfold str. rewrite (proj2 (Z.ltb_lt n 0)) by assumption.
      assert (Hrun : digit_run (str_nat (- n)) = true)
        by (apply str_nat_digit_run; lia).
      destruct (strip_core ws1 ws2 _ "-" H1 H2 eq_refl Hrun) as [-> _].
      destruct (strip_core [] [] _ "-" eq_refl eq_refl eq_refl Hrun) as [H _].
      simpl in H. rewrite app_nil_r in H. now rewrite H.
    - assert (Hrun : digit_run (str n) = true) by now apply str_digit_run.
      destruct (strip_core ws1 ws2 _ "x" H1 H2 eq_refl Hrun) as [_ ->].
      now rewrite strip_digit_run. }
  now rewrite Hstrip.
Qed.

(** X16.  White space around the number in a dependency file does not
    matter: when the file holds the decimal text of [n] between white
    space (a final newline, say), [get_vcs_number_from_file] returns
    [n]. *)
Theorem dependency_file_white_space
    (w : world) (name ws1 ws2 : pystr) (n : Z) :
  lookup_file name (cwd w) = Some (ws1 ++ str n ++ ws2) ->
  all_spaces ws1 = true -> all_spaces ws2 = true ->
  get_vcs_number_from_file name w = (Ok n, w).
Proof.
  intros Hfile H1 H2. rewrite get_vcs_number_from_file_eq, Hfile.
  unfold int_. now rewrite int_literal_padded.
Qed.

Lemma dependency_file_white_space_witness :
  get_vcs_number_from_file "vcsnumber_dep1.txt"
    (World ∅ [("vcsnumber_dep1.txt" : pystr, " " ++ str 3000 ++ [newline])] [])
  = (Ok 3000,
     World ∅ [("vcsnumber_dep1.txt" : pystr, " " ++ str 3000 ++ [newline])] []).
Proof.
  apply (dependency_file_white_space _ "vcsnumber_dep1.txt" " " [newline] 3000);
    reflexivity.
Defined.

(** ** The final number is the greatest *)

(** X17.  For a valid own build number, in a working directory that lists
    each name once and whose dependency files all hold integer texts, the
    number [get_final_vcs_number] returns is the greatest among the own
    vcs number and the numbers of the dependency files: it is one of them
    and none of them exceeds it.  The 0 returned for no dependency files
    never wins, a valid own number being non-negative. *)
Theorem get_final_vcs_number_greatest (w : world) (B : pystr) :
  environ w !! ("BUILD_NUMBER" : pystr) = Some B ->
  valid_build_number B = true ->
  distinct_names w ->
  Forall parseable (dependency_files w) ->
  exists own final,
    get_vcs_number B = Ok own /\
    get_final_vcs_number w = (Ok final, w) /\
    final ∈ own :: dependency_numbers w /\
    forall x, x ∈ own :: dependency_numbers w -> x <= final.
Proof.
  intros HB Hvalid Hnd Hall.
  destruct (valid_build_number_last B Hvalid) as (c & Hlast & Hc).
  destruct (last_digit_run_vcs_number B c Hlast Hc) as [Hne Hown].
  assert (Hpos : 0 <= digits_value 0 c).
  { apply digits_value_nonneg; [lia|now apply digit_run_all_digits]. }
  exists (digits_value 0 c).
  destruct (dependency_files w) as [|f fs] eqn:E.
  - assert (Hlargest : get_largest_dependency_vcs_number w = (Ok 0, w)).
    { rewrite largest_dependency_unfold. now rewrite E. }
    exists (digits_value 0 c). split; [assumption|]. split.
    + rewrite (get_final_vcs_number_eq w B _ _ HB Hne Hown Hlargest).
      rewrite max2_max. do 2 f_equal. lia.
    + unfold dependency_numbers. rewrite E. simpl. split.
      * apply elem_of_cons. now left.
      * intros x Hx. apply list_elem_of_singleton in Hx. lia.
  - destruct (largest_dependency_greatest w Hnd) as (m & Hm & Hin & Hmax).
    + now rewrite E.
    + now rewrite E.
    + exists (max2 (digits_value 0 c) m). split; [assumption|]. split.
      * now apply (get_final_vcs_number_eq w B).
      * rewrite max2_max. split.
        -- destruct (Z.max_spec (digits_value 0 c) m) as [[_ ->]|[_ ->]].
           ++ apply elem_of_cons. now right.
           ++ apply elem_of_cons. now left.
        -- intros x Hx. apply elem_of_cons in Hx as [->|Hx]; [lia|].
           apply Hmax in Hx. lia.
Qed.

Lemma get_final_vcs_number_greatest_witness :
  exists own final,
    get_vcs_number "7.3.0.1337" = Ok own /\
    get_final_vcs_number world_three_dependencies
      = (Ok final, world_three_dependencies) /\
    final ∈ own :: dependency_numbers world_three_dependencies /\
    forall x, x ∈ own :: dependency_numbers world_three_dependencies -> x <= final.
Proof.
  apply (get_final_vcs_number_greatest world_three_dependencies "7.3.0.1337").
  - vm_compute. reflexivity.
  - reflexivity.
  - distinct_by_computation.
  - repeat constructor; now eexists.
Defined.

(** ** What the entry point leaves alone *)

Lemma get_build_number_readonly (w : world) :
  exists r, get_build_number w = (r, w).
Proof.
  unfold get_build_number. rewrite bind_unfold.
  destruct (get_final_vcs_number_readonly w) as (r & ->).
  destruct r as [final|e]; [|now eexists].
  rewrite bind_unfold. unfold get_own_build_number.
  rewrite bind_unfold. unfold os_environ_get.
  destruct (environ w !! ("BUILD_NUMBER" : pystr)) as [[|c B]|]; now eexists.
Qed.

(** X18.  Whatever [main] does, with success or failure, it never changes
    the environment, it calls [print] at most once, with a TeamCity
    message, and it changes no file other than the vcs number file of the
    configuration; a working directory that lists each name once still
    does so afterwards. *)
Theorem main_frame (w w' : world) (r : result unit) :
  main w = (r, w') ->
  environ w' = environ w /\
  (stdout w' = stdout w \/
   exists build_number, stdout w' = stdout w ++ [get_teamcity_message build_number]) /\
  (forall other,
     (forall config_name,
        environ w !! ("TEAMCITY_BUILDCONF_NAME" : pystr) = Some config_name ->
        other <> vcs_number_file_name config_name) ->
     lookup_file other (cwd w') = lookup_file other (cwd w)) /\
  (distinct_names w -> distinct_names w').
Proof.
  destruct (get_build_number_readonly w) as ([b|e] & Hb).
  - rewrite (main_after_build_number w b Hb). cbn zeta.
    destruct (get_vcs_number b) as [v|e].
    + destruct (environ w !! ("TEAMCITY_BUILDCONF_NAME" : pystr))
        as [config_name|] eqn:Hname.
      * destruct (decide ("/"%char ∈ config_name)) as [Hsep|Hsep].
        -- rewrite (write_vcs_number_file_separator v _ config_name)
             by assumption.
           intros [= <- <-]. cbn [environ cwd stdout with_output].
           repeat split; [right; now exists b|auto].
        -- rewrite (write_vcs_number_file_ok v _ config_name) by assumption.
           intros [= <- <-]. cbn [environ cwd stdout with_output].
           repeat split.
           ++ right. now exists b.
           ++ intros other Hother. apply lookup_store_ne. now apply Hother.
           ++ apply store_file_distinct.
      * unfold write_vcs_number_file. rewrite bind_unfold. unfold os_environ_item.
        cbn [environ with_output]. unfold pystr in *. rewrite Hname.
        intros [= <- <-]. cbn [environ cwd stdout].
        repeat split; [right; now exists b|auto].
    + intros [= <- <-]. cbn [environ cwd stdout with_output].
      repeat split; [right; now exists b|auto].
  - unfold main. rewrite bind_unfold, Hb. intros [= <- <-].
    repeat split; [now left|auto].
Qed.

Lemma main_frame_witness :
  environ (snd (main world_three_dependencies)) = environ world_three_dependencies /\
  (stdout (snd (main world_three_dependencies)) = stdout world_three_dependencies \/
   exists build_number,
     stdout (snd (main world_three_dependencies))
       = stdout world_three_dependencies ++ [get_teamcity_message build_number]) /\
  (forall other,
     (forall config_name,
        environ world_three_dependencies !! ("TEAMCITY_BUILDCONF_NAME" : pystr)
          = Some config_name ->
        other <> vcs_number_file_name config_name) ->
     lookup_file other (cwd (snd (main world_three_dependencies)))
       = lookup_file other (cwd world_three_dependencies)) /\
  (distinct_names world_three_dependencies ->
   distinct_names (snd (main world_three_dependencies))).
Proof.
  apply (main_frame world_three_dependencies _ (fst (main world_three_dependencies))).
  now destruct (main world_three_dependencies).
Defined.
